(** * Datathon front end: upload validation, upload flow, result rendering
      and leaderboard refresh

    A shallow embedding of [src/pages/UploadSubmission.tsx] and of the
    refresh effect of [src/pages/Leaderboard.tsx].

    Conventions of the embedding.
    - A React component is its state record; a handler is a computation in
      a small state-and-exception monad over the page (component state plus
      the observable effects: toasts shown, requests sent, file reads
      started).
    - An [async] handler is cut at its [await]: what the network answers
      (progress events, then a response or a rejection) is an argument.
    - Text is a [string] of 8-bit characters; [toLowerCase] folds A-Z.
    - Byte counts and submission counts are integers ([Z]); accuracies are
      binary64 floating-point numbers ([float]), as JavaScript has them.
    - What depends on the host (locale, time zone) is a method of the class
      [Host]. *)

From Stdlib Require Import ZArith String Ascii List Bool Lia.
From Stdlib Require Import Numbers.DecimalString Sorting.Sorted.
From Stdlib Require Import Floats.PrimFloat Floats.SpecFloat Floats.FloatOps.
From stdpp Require Import base option gmap.
Import ListNotations.

#[local] Set Warnings "-inexact-float".

Open Scope list_scope.
Open Scope string_scope.
Open Scope Z_scope.

(** ** JavaScript built-ins used by the pages *)

Module JS.

(** [String.prototype.toLowerCase], on 8-bit text. *)
Definition lower_char (c : ascii) : ascii :=
  let n := nat_of_ascii c in
  if ((65 <=? n) && (n <=? 90))%nat then ascii_of_nat (n + 32) else c.

Fixpoint toLowerCase (s : string) : string :=
  match s with
  | EmptyString => EmptyString
  | String c r => String (lower_char c) (toLowerCase r)
  end.

(** [s.startsWith(p)]. *)
Fixpoint startsWith (p s : string) : bool :=
  match p, s with
  | EmptyString, _ => true
  | String a p', String b s' => Ascii.eqb a b && startsWith p' s'
  | String _ _, EmptyString => false
  end.

(** [s.includes(sub)]: [sub] occurs somewhere in [s]. *)
Fixpoint includes (sub s : string) : bool :=
  startsWith sub s ||
  match s with
  | EmptyString => false
  | String _ r => includes sub r
  end.

(** [s.endsWith(suf)]. *)
Definition endsWith (suf s : string) : bool :=
  let n := String.length s in
  let k := String.length suf in
  (k <=? n)%nat && String.eqb (substring (n - k) k s) suf.

(** [s.split(sep)] for a one-character separator: never empty. *)
Fixpoint split (sep : ascii) (s : string) : list string :=
  match s with
  | EmptyString => [EmptyString]
  | String c r =>
      if Ascii.eqb c sep then EmptyString :: split sep r
      else match split sep r with
           | h :: t => String c h :: t
           | [] => [String c EmptyString]
           end
  end.

(** [a.slice(0, n)]. *)
Definition slice0 {A} (n : nat) (a : list A) : list A := firstn n a.

(** [a.join(sep)]. *)
Definition join (sep : string) (a : list string) : string := String.concat sep a.

(** Truthiness of an optional string field: [undefined] and the empty
    string are falsy. *)
Definition truthy (v : option string) : bool :=
  match v with
  | Some s => negb (String.eqb s EmptyString)
  | None => false
  end.

(** The decimal digits of an integer, as [String(n)] prints an integral
    number. *)
Definition string_of_Z (n : Z) : string := NilZero.string_of_int (Z.to_int n).

(** [Math.round(a / b)] for integers [a] and [b <> 0], read in exact
    arithmetic: the nearest integer, a half going up. (For [0 <= a <= 100 * b]
    and [b < 2^45] the binary64 quotient is nearer to [a / b] than [a / b]
    is to any other half-integer, so it rounds to the same integer; the
    byte counts of an upload are far below that.) *)
Definition Math_round_div (a b : Z) : Z := (2 * a + b) / (2 * b).

(** *** [Number.prototype.toFixed] *)

(** [x * 10^f] rounded to the nearest integer, a half going up, for a
    finite [x >= 0] given as mantissa [m] and exponent [e]
    ([x = m * 2^e]). *)
Definition scaled_round (f : nat) (m : positive) (e : Z) : Z :=
  let num := Z.pos m * 10 ^ Z.of_nat f in
  if 0 <=? e then num * 2 ^ e
  else let den := 2 ^ (- e) in (2 * num + den) / (2 * den).

(** [n] is below [10^21 * 10^f]: that is, [x < 10^21]. *)
Definition below_1e21 (m : positive) (e : Z) : bool :=
  if 0 <=? e then Z.pos m * 2 ^ e <? 10 ^ 21
  else Z.pos m <? 10 ^ 21 * 2 ^ (- e).

Fixpoint zeros (k : nat) : string :=
  match k with
  | O => EmptyString
  | S k' => String "0" (zeros k')
  end.

(** The digits of [n >= 0] with a point before the last [f] of them,
    padded with zeros on the left to have one digit before the point. *)
Definition place_point (f : nat) (n : Z) : string :=
  let m := string_of_Z n in
  if (f =? 0)%nat then m
  else
    let k := String.length m in
    let m' := if (k <=? f)%nat then zeros (f + 1 - k) ++ m else m in
    let k' := String.length m' in
    substring 0 (k' - f) m' ++ "." ++ substring (k' - f) f m'.

Section ToFixed.
(** [Number::toString], which [toFixed] falls back on for a value that
    is not finite or not below [10^21]; not modelled. *)
Variable Number_toString : float -> string.

Definition toFixed (f : nat) (x : float) : string :=
  match Prim2SF x with
  | S754_zero _ => place_point f 0
  | S754_finite s m e =>
      if below_1e21 m e
      then (if s then "-" else EmptyString) ++ place_point f (scaled_round f m e)
      else Number_toString x
  | _ => Number_toString x
  end.
End ToFixed.

(** Truthiness of a number: zero (of either sign) and NaN are falsy. *)
Definition number_truthy (x : float) : bool :=
  negb (PrimFloat.is_zero x || PrimFloat.is_nan x).

(** [a || b] on optional numbers: [a] when it is there and truthy, [b]
    otherwise. *)
Definition number_or (a b : option float) : option float :=
  match a with
  | Some x => if number_truthy x then a else b
  | None => b
  end.

(** [n || 0] and [n ?? 0] on optional integers print the same number: a
    missing count reads 0. *)
Definition count_or_zero (n : option Z) : Z :=
  match n with
  | Some k => k
  | None => 0
  end.

End JS.

(** ** What the host decides *)

(** The browser's locale and time zone fix how a date prints;
    [Number::toString] is left abstract (see [JS.toFixed]). *)
Class Host := {
  (** [new Date(s).toLocaleTimeString()] *)
  Date_toLocaleTimeString : string -> string;
  (** [new Date(s).toLocaleString()] *)
  Date_toLocaleString : string -> string;
  Number_toString : float -> string;
}.

(** ** The upload page, [UploadSubmission.tsx] *)

Module Upload.
Import JS.

(** *** Data *)

(** A [File] of the browser: the fields the page reads, and the text a
    [FileReader] finds in it. *)
Record File := {
  name : string;
  type : string;
  size : Z;
  content : string;
}.

(** [interface SubmissionResult]. *)
Record SubmissionResult := {
  item_accuracy : float;
  brand_accuracy : option float;
  l0_accuracy : option float;
  l1_accuracy : option float;
  l2_accuracy : option float;
  l3_accuracy : option float;
  l4_accuracy : option float;
  timestamp : string;
  r_submissionsRemaining : Z;
}.

(** The body of a failed response, [error.response.data]: the two fields
    the page looks at; a field that is missing is [None]. *)
Record ErrorBody := {
  error : option string;
  nextReset : option string;
}.

(** [error.response]; [data] is [None] when it is [null] or [undefined]. *)
Record Response := {
  status : Z;
  data : option ErrorBody;
}.

(** What [axios.post] rejects with; [response] is [None] when no answer
    came (a network failure). *)
Record AxiosError := {
  response : option Response;
}.

(** The argument of [onUploadProgress]; [total] may be [undefined]. *)
Record ProgressEvent := {
  loaded : Z;
  total : option Z;
}.

(** What the network does with one [POST /upload]: progress events, then
    the promise resolves with [response.data] or rejects. *)
Record Answer := {
  progress : list ProgressEvent;
  settled : SubmissionResult + AxiosError;
}.

Inductive Toast :=
| ToastError (msg : string)
| ToastSuccess (msg : string).

Inductive Request :=
| GET (path : string)
| POST (path : string) (body : File).

Inductive Exn :=
| Rejected (e : AxiosError)
| TypeError.

(** The component's state (the [useState] cells), then what it has done
    to its surroundings. *)
Record Page := {
  file : option File;
  isDragging : bool;
  isUploading : bool;
  uploadProgress : Z;
  result : option SubmissionResult;
  csvPreview : list string;
  submissionsRemaining : option Z;
  (** [fileInputRef.current] and its [value]; [None] while the input is
      not rendered *)
  fileInput : option string;
  (** toasts shown, oldest first *)
  toasts : list Toast;
  (** requests sent, oldest first *)
  requests : list Request;
  (** files a [FileReader] is reading, oldest first *)
  reads : list File;
}.

(** [useState] initial values, nothing done yet. *)
Definition initial : Page :=
  {| file := None; isDragging := false; isUploading := false;
     uploadProgress := 0; result := None; csvPreview := [];
     submissionsRemaining := None; fileInput := Some EmptyString;
     toasts := []; requests := []; reads := [] |}.

(** *** The monad of handlers *)

Inductive Outcome (A : Type) :=
| Ok (a : A)
| Throw (e : Exn).
Arguments Ok {A} a.
Arguments Throw {A} e.

Definition M (A : Type) : Type := Page -> Page * Outcome A.

Definition ret {A} (a : A) : M A := fun p => (p, Ok a).

Definition bind {A B} (c : M A) (k : A -> M B) : M B :=
  fun p =>
    match c p with
    | (p', Ok a) => k a p'
    | (p', Throw e) => (p', Throw e)
    end.

Definition throw {A} (e : Exn) : M A := fun p => (p, Throw e).

(** [try { c } catch (error) { h error }]. *)
Definition try_catch {A} (c : M A) (h : Exn -> M A) : M A :=
  fun p =>
    match c p with
    | (p', Ok a) => (p', Ok a)
    | (p', Throw e) => h e p'
    end.

(** [try { c } finally { fin }]: [fin] runs however [c] ends. *)
Definition try_finally {A} (c : M A) (fin : M unit) : M A :=
  fun p =>
    match c p with
    | (p', o) =>
        match fin p' with
        | (p'', Ok _) => (p'', o)
        | (p'', Throw e) => (p'', Throw e)
        end
    end.

Definition gets {A} (f : Page -> A) : M A := fun p => (p, Ok (f p)).
Definition modify (f : Page -> Page) : M unit := fun p => (f p, Ok tt).

(** The page a handler leaves. *)
Definition exec {A} (c : M A) (p : Page) : Page := fst (c p).

(** How it ended. *)
Definition outcome {A} (c : M A) (p : Page) : Outcome A := snd (c p).

Notation "x <- c ;; k" := (bind c (fun x => k))
  (at level 100, c at next level, k at level 200, right associativity).
Notation "c ;; k" := (bind c (fun _ => k))
  (at level 100, k at level 200, right associativity).

(** [for (x of l) f x]. *)
Fixpoint for_each {A} (f : A -> M unit) (l : list A) : M unit :=
  match l with
  | [] => ret tt
  | x :: r => f x ;; for_each f r
  end.

(** *** State setters and effects *)

Definition setFile (v : option File) : M unit :=
  modify (fun p =>
    {| file := v; isDragging := isDragging p; isUploading := isUploading p;
       uploadProgress := uploadProgress p; result := result p;
       csvPreview := csvPreview p; submissionsRemaining := submissionsRemaining p;
       fileInput := fileInput p; toasts := toasts p; requests := requests p;
       reads := reads p |}).

Definition setIsDragging (v : bool) : M unit :=
  modify (fun p =>
    {| file := file p; isDragging := v; isUploading := isUploading p;
       uploadProgress := uploadProgress p; result := result p;
       csvPreview := csvPreview p; submissionsRemaining := submissionsRemaining p;
       fileInput := fileInput p; toasts := toasts p; requests := requests p;
       reads := reads p |}).

Definition setIsUploading (v : bool) : M unit :=
  modify (fun p =>
    {| file := file p; isDragging := isDragging p; isUploading := v;
       uploadProgress := uploadProgress p; result := result p;
       csvPreview := csvPreview p; submissionsRemaining := submissionsRemaining p;
       fileInput := fileInput p; toasts := toasts p; requests := requests p;
       reads := reads p |}).

Definition setUploadProgress (v : Z) : M unit :=
  modify (fun p =>
    {| file := file p; isDragging := isDragging p; isUploading := isUploading p;
       uploadProgress := v; result := result p;
       csvPreview := csvPreview p; submissionsRemaining := submissionsRemaining p;
       fileInput := fileInput p; toasts := toasts p; requests := requests p;
       reads := reads p |}).

Definition setResult (v : option SubmissionResult) : M unit :=
  modify (fun p =>
    {| file := file p; isDragging := isDragging p; isUploading := isUploading p;
       uploadProgress := uploadProgress p; result := v;
       csvPreview := csvPreview p; submissionsRemaining := submissionsRemaining p;
       fileInput := fileInput p; toasts := toasts p; requests := requests p;
       reads := reads p |}).

Definition setCsvPreview (v : list string) : M unit :=
  modify (fun p =>
    {| file := file p; isDragging := isDragging p; isUploading := isUploading p;
       uploadProgress := uploadProgress p; result := result p;
       csvPreview := v; submissionsRemaining := submissionsRemaining p;
       fileInput := fileInput p; toasts := toasts p; requests := requests p;
       reads := reads p |}).

Definition setSubmissionsRemaining (v : option Z) : M unit :=
  modify (fun p =>
    {| file := file p; isDragging := isDragging p; isUploading := isUploading p;
       uploadProgress := uploadProgress p; result := result p;
       csvPreview := csvPreview p; submissionsRemaining := v;
       fileInput := fileInput p; toasts := toasts p; requests := requests p;
       reads := reads p |}).

(** [fileInputRef.current.value = v], when the input is there. *)
Definition setFileInputValue (v : string) : M unit :=
  modify (fun p =>
    {| file := file p; isDragging := isDragging p; isUploading := isUploading p;
       uploadProgress := uploadProgress p; result := result p;
       csvPreview := csvPreview p; submissionsRemaining := submissionsRemaining p;
       fileInput := match fileInput p with Some _ => Some v | None => None end;
       toasts := toasts p; requests := requests p; reads := reads p |}).

Definition toast (t : Toast) : M unit :=
  modify (fun p =>
    {| file := file p; isDragging := isDragging p; isUploading := isUploading p;
       uploadProgress := uploadProgress p; result := result p;
       csvPreview := csvPreview p; submissionsRemaining := submissionsRemaining p;
       fileInput := fileInput p; toasts := (toasts p ++ [t])%list;
       requests := requests p; reads := reads p |}).

Definition toast_error (msg : string) : M unit := toast (ToastError msg).
Definition toast_success (msg : string) : M unit := toast (ToastSuccess msg).

Definition send (r : Request) : M unit :=
  modify (fun p =>
    {| file := file p; isDragging := isDragging p; isUploading := isUploading p;
       uploadProgress := uploadProgress p; result := result p;
       csvPreview := csvPreview p; submissionsRemaining := submissionsRemaining p;
       fileInput := fileInput p; toasts := toasts p;
       requests := (requests p ++ [r])%list; reads := reads p |}).

Definition setReads (v : list File) : M unit :=
  modify (fun p =>
    {| file := file p; isDragging := isDragging p; isUploading := isUploading p;
       uploadProgress := uploadProgress p; result := result p;
       csvPreview := csvPreview p; submissionsRemaining := submissionsRemaining p;
       fileInput := fileInput p; toasts := toasts p; requests := requests p;
       reads := v |}).

(** [reader.readAsText(f)]: the read starts; [onload] comes later. *)
Definition readAsText (f : File) : M unit :=
  r <- gets reads ;; setReads (r ++ [f])%list.

(** *** Constants of the page *)

Definition newline : ascii := ascii_of_nat 10.
Definition dquote : string := String (ascii_of_nat 34) EmptyString.

(** [5 * 1024 * 1024] *)
Definition MAX_SIZE : Z := 5 * 1024 * 1024.

Definition requiredColumns : list string :=
  ["details_brand"; "l0_category"; "l1_category"; "l2_category";
   "l3_category"; "l4_category"].

Definition MSG_ONLY_CSV : string := "Only CSV files are allowed".
Definition MSG_TOO_BIG : string := "File size exceeds 5MB limit".
Definition MSG_NO_WALMART_ID : string :=
  "CSV must contain a column named " ++ dquote ++ "walmart_id" ++ dquote.
Definition MSG_MISSING_PREFIX : string := "CSV is missing required columns: ".
Definition MSG_NO_FILE : string := "Please select a file to upload".
Definition MSG_UPLOADED : string := "File uploaded successfully!".
Definition MSG_LIMIT_PREFIX : string :=
  "Daily upload limit exceeded. Limit resets at ".
Definition MSG_UPLOAD_FAILED : string :=
  "Upload failed. Please check file format and try again.".

Definition UPLOAD_PATH : string := "/upload".
Definition REMAINING_PATH : string := "/submissions-remaining".

(** *** Selecting a file *)

(** [reader.onload], with [e.target?.result]: the first five rows become
    the preview, and the header row is looked at. *)
Definition reader_onload (res : option string) : M unit :=
  let text := match res with Some t => t | None => EmptyString end in
  let rows := slice0 5 (split newline text) in
  setCsvPreview rows ;;
  if (0 <? List.length rows)%nat then
    let headers := toLowerCase (nth 0 rows EmptyString) in
    if negb (includes "walmart_id" headers) then
      toast_error MSG_NO_WALMART_ID
    else
      let missingColumns :=
        List.filter (fun col => negb (includes col headers)) requiredColumns in
      if (0 <? List.length missingColumns)%nat then
        toast_error (MSG_MISSING_PREFIX ++ join ", " missingColumns)
      else ret tt
  else ret tt.

(** [validateAndSetFile]: up to the end of the call; the reader's
    [onload] runs after it. *)
Definition validateAndSetFile (f : File) : M unit :=
  if negb (endsWith ".csv" (name f)) && negb (String.eqb (type f) "text/csv") then
    toast_error MSG_ONLY_CSV
  else if size f >? MAX_SIZE then
    toast_error MSG_TOO_BIG
  else
    readAsText f ;;
    setFile (Some f) ;;
    setResult None.

(** The browser finishes the oldest read and calls [onload] with the
    file's text. *)
Definition FileReader_load : M unit :=
  r <- gets reads ;;
  match r with
  | [] => ret tt
  | f :: r' => setReads r' ;; reader_onload (Some (content f))
  end.

Definition handleDragOver : M unit := setIsDragging true.
Definition handleDragLeave : M unit := setIsDragging false.

(** [handleDrop], with [e.dataTransfer.files]. *)
Definition handleDrop (files : list File) : M unit :=
  setIsDragging false ;;
  match files with
  | droppedFile :: _ => validateAndSetFile droppedFile
  | [] => ret tt
  end.

(** [handleFileChange], with [e.target.files]. *)
Definition handleFileChange (files : list File) : M unit :=
  match files with
  | f :: _ => validateAndSetFile f
  | [] => ret tt
  end.

Definition handleRemoveFile : M unit :=
  setFile None ;;
  setCsvPreview [] ;;
  setResult None ;;
  setFileInputValue EmptyString.

(** The effect on mount: [fetchRequirements], answered by the count or by
    a failure ([None]), which is only logged. *)
Definition fetchRequirements (answer : option Z) : M unit :=
  send (GET REMAINING_PATH) ;;
  match answer with
  | Some n => setSubmissionsRemaining (Some n)
  | None => ret tt
  end.

(** *** Uploading *)

(** [onUploadProgress]: nothing when [total] is falsy ([undefined] or 0). *)
Definition onUploadProgress (progressEvent : ProgressEvent) : M unit :=
  match total progressEvent with
  | Some t =>
      if t =? 0 then ret tt
      else setUploadProgress (Math_round_div (loaded progressEvent * 100) t)
  | None => ret tt
  end.

(** [await axios.post(`${API_URL}/upload`, formData, ...)]: the request
    goes out with the file, progress is reported, the promise settles. *)
Definition axios_post (f : File) (a : Answer) : M SubmissionResult :=
  send (POST UPLOAD_PATH f) ;;
  for_each onUploadProgress (progress a) ;;
  match settled a with
  | inl r => ret r
  | inr e => throw (Rejected e)
  end.

(** [error.response] of whatever was caught. *)
Definition response_of (e : Exn) : option Response :=
  match e with
  | Rejected a => response a
  | TypeError => None
  end.

Section WithHost.
Context `{Host}.

(** The [catch] block of [handleUpload]. *)
Definition upload_failed (err : Exn) : M unit :=
  let serverError :=
    match response_of err with
    | Some r => data r
    | None => None
    end in
  let st := match response_of err with Some r => Some (status r) | None => None end in
  if match st with Some s => s =? 429 | None => false end then
    match serverError with
    | None => throw TypeError
    | Some b =>
        let reset :=
          if truthy (nextReset b)
          then Date_toLocaleTimeString
                 (match nextReset b with Some s => s | None => EmptyString end)
          else "tomorrow" in
        toast_error (MSG_LIMIT_PREFIX ++ reset)
    end
  else
    let field := match serverError with Some b => error b | None => None end in
    let errorMessage :=
      if truthy field
      then match field with Some s => s | None => EmptyString end
      else MSG_UPLOAD_FAILED in
    toast_error errorMessage.

(** What follows the [await] when the promise resolved. *)
Definition upload_succeeded (r : SubmissionResult) : M unit :=
  setResult (Some r) ;;
  setSubmissionsRemaining (Some (r_submissionsRemaining r)) ;;
  toast_success MSG_UPLOADED.

(** [handleUpload], the network's answer given. *)
Definition handleUpload (a : Answer) : M unit :=
  selected <- gets file ;;
  match selected with
  | None => toast_error MSG_NO_FILE
  | Some f =>
      setIsUploading true ;;
      setUploadProgress 0 ;;
      try_finally
        (try_catch
           (r <- axios_post f a ;; upload_succeeded r)
           upload_failed)
        (setIsUploading false)
  end.

(** *** What is rendered *)

(** [{(x * 100).toFixed(2)}%] *)
Definition percent (x : float) : string :=
  toFixed Number_toString 2 (x * 100)%float ++ "%".

(** The results card. *)
Record ResultCard := {
  shown_item_accuracy : string;
  shown_brand_accuracy : option string;
  (** label and value of each category level that is defined *)
  shown_levels : list (string * string);
  shown_submitted_on : string;
  shown_submissions_remaining : string;
}.

Definition level (label : string) (v : option float) : list (string * string) :=
  match v with
  | Some x => [(label, percent x)]
  | None => []
  end.

(** [{result && (<Card> ... </Card>)}] *)
Definition render_result (res : option SubmissionResult) : option ResultCard :=
  match res with
  | None => None
  | Some r =>
      Some {|
        shown_item_accuracy := percent (item_accuracy r);
        shown_brand_accuracy := option_map percent (brand_accuracy r);
        shown_levels :=
          (level "L0 Category" (l0_accuracy r) ++ level "L1 Category" (l1_accuracy r) ++
           level "L2 Category" (l2_accuracy r) ++ level "L3 Category" (l3_accuracy r) ++
           level "L4 Category" (l4_accuracy r))%list;
        shown_submitted_on := "Submitted on " ++ Date_toLocaleString (timestamp r);
        shown_submissions_remaining := string_of_Z (r_submissionsRemaining r);
      |}
  end.

(** The progress line, [{uploadProgress}% Uploaded]: rendered while a
    file is selected and the upload runs. *)
Definition displayed_progress (p : Page) : option Z :=
  match file p with
  | Some _ => if isUploading p then Some (uploadProgress p) else None
  | None => None
  end.

(** The pages rendered during one upload of the selected file: after
    the submit, then after each progress event. *)
Fixpoint progress_pages (evs : list ProgressEvent) (p : Page) : list Page :=
  match evs with
  | [] => [p]
  | e :: r => p :: progress_pages r (exec (onUploadProgress e) p)
  end.

Definition upload_pages (a : Answer) (p : Page) : list Page :=
  match file p with
  | None => []
  | Some f =>
      progress_pages (progress a)
        (exec (setIsUploading true ;; setUploadProgress 0 ;; send (POST UPLOAD_PATH f)) p)
  end.

(** *** The page over time *)

(** What the user, the browser and the network can do to the page. *)
Inductive Action :=
| Mounted (answer : option Z)
| DragOver
| DragLeave
| Drop (files : list File)
| Change (files : list File)
| Loaded
| Submit (a : Answer)
| Remove.

Definition handler (act : Action) : M unit :=
  match act with
  | Mounted answer => fetchRequirements answer
  | DragOver => handleDragOver
  | DragLeave => handleDragLeave
  | Drop files => handleDrop files
  | Change files => handleFileChange files
  | Loaded => FileReader_load
  | Submit a => handleUpload a
  | Remove => handleRemoveFile
  end.

(** React renders again after a handler: the file input is there
    exactly while no file is selected, and a new input is empty. *)
Definition rerender (p : Page) : Page :=
  {| file := file p; isDragging := isDragging p; isUploading := isUploading p;
     uploadProgress := uploadProgress p; result := result p;
     csvPreview := csvPreview p; submissionsRemaining := submissionsRemaining p;
     fileInput :=
       match file p with
       | Some _ => None
       | None =>
           match fileInput p with
           | Some v => Some v
           | None => Some EmptyString
           end
       end;
     toasts := toasts p; requests := requests p; reads := reads p |}.

(** An exception that leaves a handler is an unhandled rejection: the
    page stays as the handler left it. *)
Fixpoint run (acts : list Action) (p : Page) : Page :=
  match acts with
  | [] => p
  | act :: r => run r (rerender (exec (handler act) p))
  end.

(** The line of the requirements card,
    [{submissionsRemaining !== null && (...)}]: the count, once known. *)
Definition shown_quota (p : Page) : option string :=
  option_map string_of_Z (submissionsRemaining p).

(** The preview block, [{csvPreview.length > 0 && ...}], inside the
    branch rendered while a file is selected: the rows joined by
    newlines. *)
Definition shown_preview (p : Page) : option string :=
  match file p with
  | Some _ =>
      if (0 <? List.length (csvPreview p))%nat
      then Some (join (String newline EmptyString) (csvPreview p))
      else None
  | None => None
  end.

End WithHost.

End Upload.

(** ** The leaderboard's refresh, [Leaderboard.tsx] *)

Module Leaderboard.

(** [interface LeaderboardEntry]. *)
Record LeaderboardEntry := {
  user_id : string;
  item_accuracy : float;
  l0_accuracy : option float;
  l1_accuracy : option float;
  l2_accuracy : option float;
  l3_accuracy : option float;
  l4_accuracy : option float;
  brand_accuracy : option float;
  timestamp : string;
}.

(** What a timer of the window calls. The page registers one callback:
    the arrow function that calls [fetchLeaderboard]. *)
Inductive Callback := AutoRefresh.

Record Timer := {
  delay : Z;
  callback : Callback;
}.

(** How [GET /leaderboard?limit=20] ends: a body with a [leaderboard]
    array, a body without one, or a rejection (with the server's [error]
    text when there is one). *)
Inductive Answer :=
| Entries (l : list LeaderboardEntry)
| Unexpected
| Failed (msg : option string).

(** The component's state, the window's interval timers, and what was
    sent and shown. *)
Record View := {
  leaderboard : list LeaderboardEntry;
  isLoading : bool;
  lastUpdated : option Z;
  isRefreshing : bool;
  timers : gmap nat Timer;
  requests : list string;
  toasts : list string;
}.

Definition LEADERBOARD_PATH : string := "/leaderboard?limit=20".

(** [2 * 60 * 1000] milliseconds *)
Definition REFRESH_MS : Z := 2 * 60 * 1000.

Definition initial : View :=
  {| leaderboard := []; isLoading := true; lastUpdated := None;
     isRefreshing := false; timers := ∅; requests := []; toasts := [] |}.

(** [fetchLeaderboard] up to its [await]. *)
Definition fetchLeaderboard (v : View) : View :=
  {| leaderboard := leaderboard v; isLoading := isLoading v;
     lastUpdated := lastUpdated v; isRefreshing := true;
     timers := timers v;
     requests := (requests v ++ [LEADERBOARD_PATH])%list;
     toasts := toasts v |}.

(** [fetchLeaderboard] after its [await], at time [now]. *)
Definition fetchLeaderboard_settled (a : Answer) (now : Z) (v : View) : View :=
  match a with
  | Entries l =>
      {| leaderboard := l; isLoading := false; lastUpdated := Some now;
         isRefreshing := false; timers := timers v; requests := requests v;
         toasts := toasts v |}
  | Unexpected =>
      {| leaderboard := []; isLoading := false; lastUpdated := Some now;
         isRefreshing := false; timers := timers v; requests := requests v;
         toasts := (toasts v ++ ["Received unexpected data format from server"])%list |}
  | Failed msg =>
      {| leaderboard := []; isLoading := false; lastUpdated := lastUpdated v;
         isRefreshing := false; timers := timers v; requests := requests v;
         toasts :=
           (toasts v ++
            [if JS.truthy msg
             then match msg with Some s => s | None => EmptyString end
             else "Failed to load leaderboard"])%list |}
  end.

(** [setInterval(cb, ms)]: a timer under an identifier not in use. *)
Definition setInterval (cb : Callback) (ms : Z) (v : View) : View * nat :=
  let id := fresh (dom (timers v)) in
  ({| leaderboard := leaderboard v; isLoading := isLoading v;
      lastUpdated := lastUpdated v; isRefreshing := isRefreshing v;
      timers := <[id := {| delay := ms; callback := cb |}]> (timers v);
      requests := requests v; toasts := toasts v |}, id).

(** [clearInterval(id)]. *)
Definition clearInterval (id : nat) (v : View) : View :=
  {| leaderboard := leaderboard v; isLoading := isLoading v;
     lastUpdated := lastUpdated v; isRefreshing := isRefreshing v;
     timers := delete id (timers v);
     requests := requests v; toasts := toasts v |}.

Definition run_callback (cb : Callback) (v : View) : View :=
  match cb with
  | AutoRefresh => fetchLeaderboard v
  end.

(** The body of the effect, run on mount: one fetch, then the interval.
    The identifier is what the cleanup closes over. *)
Definition mount (v : View) : View * nat :=
  setInterval AutoRefresh REFRESH_MS (fetchLeaderboard v).

(** The function the effect returns, run on unmount. *)
Definition unmount (intervalId : nat) (v : View) : View :=
  clearInterval intervalId v.

Definition handleRefresh (v : View) : View := fetchLeaderboard v.

(** What can happen to the view besides mounting and unmounting. *)
Inductive Event :=
| Elapsed (id : nat)
| Settled (a : Answer) (now : Z)
| RefreshClicked.

(** The delay of timer [id] has elapsed once more: the window calls its
    callback if the timer is still set, and does nothing otherwise. *)
Definition step (e : Event) (v : View) : View :=
  match e with
  | Elapsed id =>
      match timers v !! id with
      | Some t => run_callback (callback t) v
      | None => v
      end
  | Settled a now => fetchLeaderboard_settled a now v
  | RefreshClicked => handleRefresh v
  end.

Fixpoint run (es : list Event) (v : View) : View :=
  match es with
  | [] => v
  | e :: r => run r (step e v)
  end.

(** After the unmount no button is left to click; timers may elapse and
    requests in flight may still settle. *)
Definition unattended (e : Event) : bool :=
  match e with
  | RefreshClicked => false
  | _ => true
  end.

(** The same, with no timer elapsing but [id]. *)
Definition only_timer (id : nat) (e : Event) : bool :=
  match e with
  | Elapsed k => Nat.eqb k id
  | Settled _ _ => true
  | RefreshClicked => false
  end.

(** *** What is rendered *)

Section Rendering.
Context `{Host}.

(** The logged-in user's name, from [useAuth()]; [None] when nobody is
    logged in. *)
Variable user : option string.

(** [isCurrentUser]: [user && user.username === userId]. *)
Definition isCurrentUser (userId : string) : bool :=
  match user with
  | Some username => String.eqb username userId
  | None => false
  end.

(** [formatAccuracy]. *)
Definition formatAccuracy (value : option float) : string :=
  match value with
  | None => "N/A"
  | Some x => Upload.percent x
  end.

(** One row of the table. *)
Record Row := {
  (** the medal's colour class, for the first three rows *)
  medal : option string;
  (** [{index + 1}] *)
  shown_rank : nat;
  (** the row's class: [bg-indigo-50] for the current user *)
  row_class : string;
  shown_user : string;
  (** the [You] badge *)
  you_badge : bool;
  (** item accuracy, L0 to L4, brand *)
  shown_accuracies : list string;
  shown_date : string;
}.

(** The body of [leaderboard.map((entry, index) => ...)]. *)
Definition render_row (index : nat) (entry : LeaderboardEntry) : Row :=
  {| medal :=
       if (index <? 3)%nat then
         Some (if (index =? 0)%nat then "text-yellow-500"
               else if (index =? 1)%nat then "text-gray-400"
               else "text-amber-700")
       else None;
     shown_rank := index + 1;
     row_class := if isCurrentUser (user_id entry) then "bg-indigo-50" else EmptyString;
     shown_user := user_id entry;
     you_badge := isCurrentUser (user_id entry);
     shown_accuracies :=
       [formatAccuracy (Some (item_accuracy entry));
        formatAccuracy (l0_accuracy entry); formatAccuracy (l1_accuracy entry);
        formatAccuracy (l2_accuracy entry); formatAccuracy (l3_accuracy entry);
        formatAccuracy (l4_accuracy entry); formatAccuracy (brand_accuracy entry)];
     shown_date := Date_toLocaleString (timestamp entry) |}.

(** [entries.map(render_row)], the first index being [index]. *)
Fixpoint render_rows (index : nat) (entries : list LeaderboardEntry) : list Row :=
  match entries with
  | [] => []
  | entry :: rest => render_row index entry :: render_rows (S index) rest
  end.

(** The table body: the rows, or the line [No entries yet]. *)
Inductive TableBody :=
| NoEntries
| Rows (rows : list Row).

(** What the component returns: the spinner while loading, the table
    afterwards. *)
Inductive Screen :=
| Spinner
| Table (body : TableBody).

Definition render (v : View) : Screen :=
  if isLoading v then Spinner
  else Table (if (0 <? List.length (leaderboard v))%nat
              then Rows (render_rows 0 (leaderboard v))
              else NoEntries).

End Rendering.

End Leaderboard.

(** ** The dashboard, [Dashboard.tsx] *)

Module Dashboard.

(** [interface Score]. *)
Record Score := {
  item_accuracy : option float;
  accuracy : option float;
  f1 : option float;
  timestamp : string;
}.

(** [interface UserStats]; a field the server left out is [None]. *)
Record UserStats := {
  total_submissions : option Z;
  best_f1 : option float;
  uploads_today : option Z;
  submissions_remaining : option Z;
  max_daily_submissions : option Z;
  next_reset : option string;
}.

(** The body of [GET /scores]; [stats] may be missing. *)
Record ScoresData := {
  sd_scores : list Score;
  sd_stats : option UserStats;
}.

(** The body of [GET /remaining-submissions]. *)
Record RemainingData := {
  rd_submissions_remaining : option Z;
  rd_max_daily_submissions : option Z;
  rd_next_reset : option string;
}.

(** How the two requests of the mount end; when both are rejected,
    [remaining_rejects_first] says which rejection came first. *)
Record Answer := {
  scores_reply : ScoresData + Upload.AxiosError;
  remaining_reply : RemainingData + Upload.AxiosError;
  remaining_rejects_first : bool;
}.

(** The component's state, then what was sent and shown. *)
Record View := {
  scores : list Score;
  stats : option UserStats;
  isLoading : bool;
  requests : list string;
  toasts : list string;
}.

Definition SCORES_PATH : string := "/scores".
Definition REMAINING_PATH : string := "/remaining-submissions".
Definition MSG_LOAD_FAILED : string := "Failed to load dashboard data".

Definition initial : View :=
  {| scores := []; stats := None; isLoading := true; requests := []; toasts := [] |}.

(** [Promise.all] of the two requests: both bodies, or the rejection that
    came first. *)
Definition Promise_all (a : Answer) : (ScoresData * RemainingData) + Upload.AxiosError :=
  match scores_reply a, remaining_reply a with
  | inl sd, inl rd => inl (sd, rd)
  | inr e, inl _ => inr e
  | inl _, inr e => inr e
  | inr e1, inr e2 => inr (if remaining_rejects_first a then e2 else e1)
  end.

(** [{...scoresResponse.data.stats, submissions_remaining: ...,
    max_daily_submissions: ..., next_reset: ...}]. *)
Definition merge_stats (base : option UserStats) (rd : RemainingData) : UserStats :=
  {| total_submissions := match base with Some b => total_submissions b | None => None end;
     best_f1 := match base with Some b => best_f1 b | None => None end;
     uploads_today := match base with Some b => uploads_today b | None => None end;
     submissions_remaining := rd_submissions_remaining rd;
     max_daily_submissions := rd_max_daily_submissions rd;
     next_reset := rd_next_reset rd |}.

(** [error.response?.data?.error]. *)
Definition error_text (e : Upload.AxiosError) : option string :=
  match Upload.response e with
  | Some r =>
      match Upload.data r with
      | Some b => Upload.error b
      | None => None
      end
  | None => None
  end.

(** The effect run on mount: [fetchUserData], the answers given. *)
Definition fetchUserData (a : Answer) (v : View) : View :=
  let sent := (requests v ++ [SCORES_PATH; REMAINING_PATH])%list in
  match Promise_all a with
  | inl (sd, rd) =>
      {| scores := sd_scores sd;
         stats := Some (merge_stats (sd_stats sd) rd);
         isLoading := false; requests := sent; toasts := toasts v |}
  | inr e =>
      {| scores := scores v; stats := stats v; isLoading := false;
         requests := sent;
         toasts :=
           (toasts v ++
            [if JS.truthy (error_text e)
             then match error_text e with Some m => m | None => EmptyString end
             else MSG_LOAD_FAILED])%list |}
  end.

(** *** What is rendered *)

Section Rendering.
Context `{Host}.

(** [new Date(s).toLocaleDateString()], decided by the host. *)
Variable Date_toLocaleDateString : string -> string.

(** [formatNumber(value)], with its default of four decimals. *)
Definition formatNumber (value : option float) : string :=
  match value with
  | None => "N/A"
  | Some x => JS.toFixed Number_toString 4 x
  end.

(** What [{a && b && (<p>...</p>)}] leaves in the card: nothing, a bare
    number, or the line with the daily limit and the reset time. *)
Inductive LimitLine :=
| NoLine
| BareNumber (n : Z)
| BareText (s : string)
| Limit (max : Z) (resets : string).

Definition render_limit (st : option UserStats) : LimitLine :=
  match st with
  | None => NoLine
  | Some u =>
      match max_daily_submissions u with
      | None => NoLine
      | Some m =>
          if m =? 0 then BareNumber 0
          else
            match next_reset u with
            | None => NoLine
            | Some r =>
                if String.eqb r EmptyString then BareText r
                else Limit m (Date_toLocaleTimeString r)
            end
      end
  end.

(** The four cards at the top. *)
Record Cards := {
  shown_best : string;
  shown_total : string;
  shown_today : string;
  shown_remaining : string;
  shown_limit : LimitLine;
}.

Definition render_cards (st : option UserStats) : Cards :=
  {| shown_best := formatNumber (match st with Some u => best_f1 u | None => None end);
     shown_total :=
       JS.string_of_Z
         (JS.count_or_zero (match st with Some u => total_submissions u | None => None end));
     shown_today :=
       JS.string_of_Z
         (JS.count_or_zero (match st with Some u => uploads_today u | None => None end));
     shown_remaining :=
       JS.string_of_Z
         (JS.count_or_zero (match st with Some u => submissions_remaining u | None => None end));
     shown_limit := render_limit st |}.

(** [chartData]: the labels and the two data sets. *)
Record Chart := {
  labels : list string;
  f1_data : list float;
  accuracy_data : list float;
}.

Definition number_or_zero (v : option float) : float :=
  match JS.number_or v (Some 0%float) with
  | Some x => x
  | None => 0%float
  end.

Definition chartData (l : list Score) : Chart :=
  {| labels := List.map (fun score => Date_toLocaleDateString (timestamp score)) l;
     f1_data := List.map (fun score => number_or_zero (f1 score)) l;
     accuracy_data :=
       List.map (fun score =>
                   number_or_zero (JS.number_or (accuracy score) (item_accuracy score)))
                l |}.

(** A row of [Recent Submissions]: the date and the accuracy. *)
Definition recent_row (score : Score) : string * string :=
  (Date_toLocaleDateString (timestamp score),
   formatNumber (JS.number_or (accuracy score) (item_accuracy score))).

(** [scores.slice(0, 10).map(...)] *)
Definition recent_rows (l : list Score) : list (string * string) :=
  List.map recent_row (JS.slice0 10 l).

(** What the component returns. *)
Inductive Screen :=
| Spinner
| Board (cards : Cards) (chart : option Chart) (recent : option (list (string * string))).

Definition render (v : View) : Screen :=
  if isLoading v then Spinner
  else
    Board (render_cards (stats v))
          (if (0 <? List.length (scores v))%nat then Some (chartData (scores v)) else None)
          (if (0 <? List.length (scores v))%nat then Some (recent_rows (scores v)) else None).

End Rendering.

End Dashboard.

(** * Properties *)

(** ** Vocabulary of the statements *)

Section Vocabulary.
Import JS Upload.

(** The file has a CSV name or a CSV MIME type. *)
Definition is_csv (f : File) : bool :=
  endsWith ".csv" (name f) || String.eqb (type f) "text/csv".

(** The file is no larger than 5 MiB. *)
Definition within_limit (f : File) : bool := size f <=? MAX_SIZE.

(** The first line of a text: its header row. *)
Definition header_row (text : string) : string :=
  hd EmptyString (split newline text).

(** A host for the examples: it prints a date as the text it was built
    from. *)
Definition plain_host : Host :=
  {| Date_toLocaleTimeString := fun s => s;
     Date_toLocaleString := fun s => s;
     Number_toString := fun _ => "NaN" |}.

Definition LF : string := String newline EmptyString.

Definition good_csv : File :=
  {| name := "predictions.csv"; type := "text/csv"; size := 64;
     content :=
       "walmart_id,details_Brand,L0_category,L1_category,L2_category,L3_category,L4_category"
       ++ LF ++ "17,acme,a,b,c,d,e" |}.

Definition no_id_csv : File :=
  {| name := "predictions.csv"; type := "text/csv"; size := 20;
     content := "id,brand" ++ LF ++ "17,acme" |}.

Definition partial_csv : File :=
  {| name := "predictions.csv"; type := EmptyString; size := 48;
     content := "Walmart_ID,details_Brand,L0_category,l2_category" ++ LF ++ "17,acme,a,c" |}.

Definition big_text : File :=
  {| name := "notes.txt"; type := "text/plain"; size := MAX_SIZE + 1;
     content := "hello" |}.

Definition big_csv : File :=
  {| name := "predictions.csv"; type := "text/csv"; size := MAX_SIZE + 1;
     content := "walmart_id" |}.

Definition photo : File :=
  {| name := "photo.png"; type := "image/png"; size := 1024;
     content := EmptyString |}.

Definition scores : SubmissionResult :=
  {| Upload.item_accuracy := 0.87%float; Upload.brand_accuracy := None;
     Upload.l0_accuracy := None; Upload.l1_accuracy := None;
     Upload.l2_accuracy := None; Upload.l3_accuracy := None;
     Upload.l4_accuracy := None;
     Upload.timestamp := "2024-01-01T00:00:00Z";
     r_submissionsRemaining := 3 |}.

(** The page once [f] has been chosen and nothing else has happened. *)
Definition chosen (f : File) : Page :=
  exec (validateAndSetFile f) Upload.initial.

Definition rejection (st : Z) (b : option ErrorBody) : Answer :=
  {| progress := [];
     settled := inr {| response := Some {| status := st; data := b |} |} |}.

(** The [error] field of the body of a rejection, if there is a response,
    a body and the field: [serverError?.error]. *)
Definition server_error_field (e : AxiosError) : option string :=
  match response e with
  | Some r => match data r with Some b => error b | None => None end
  | None => None
  end.

(** The status of a rejection, if there is a response. *)
Definition status_of (e : AxiosError) : option Z :=
  match response e with
  | Some r => Some (status r)
  | None => None
  end.

(** The file selected and every file sent passed both checks. *)
Definition only_accepted (p : Page) : Prop :=
  (forall g, file p = Some g -> is_csv g && within_limit g = true) /\
  (forall path g, In (POST path g) (requests p) -> is_csv g && within_limit g = true).

(** A successful upload of three progress events, the second without a
    [total]. *)
Definition accepted_answer : Answer :=
  {| progress := [ {| loaded := 32; total := Some 64 |};
                   {| loaded := 48; total := None |};
                   {| loaded := 64; total := Some 64 |} ];
     settled := inl scores |}.


Definition empty_error_body : ErrorBody :=
  {| error := Some EmptyString; nextReset := None |}.

Definition server_error_body : ErrorBody :=
  {| error := Some "Invalid CSV format"; nextReset := None |}.

(** [toFixed] prints the number itself: it is finite and below [10^21]
    in magnitude, so there is no fall-back on [Number::toString]. *)
Definition fixed_notation (x : float) : bool :=
  match Prim2SF x with
  | S754_zero _ => true
  | S754_finite _ m e => below_1e21 m e
  | _ => false
  end.

(** The event sends a request: a click on [Refresh], or the delay of a
    timer of the table [T] elapsing. *)
Definition triggers (T : gmap nat Leaderboard.Timer) (e : Leaderboard.Event) : bool :=
  match e with
  | Leaderboard.Elapsed k => match T !! k with Some _ => true | None => false end
  | Leaderboard.Settled _ _ => false
  | Leaderboard.RefreshClicked => true
  end.

(** A text whose header row is that of [partial_csv] in other letter
    cases, over other data. *)
Definition partial_csv_shouted : string :=
  "walmart_id,DETAILS_BRAND,l0_category,L2_CATEGORY" ++ LF ++ "99,zz,y,x" ++ LF ++ "100,zz,y,x".

(** An upload whose progress events all carry the same [total]. *)
Definition steady_answer : Answer :=
  {| progress := [ {| loaded := 16; total := Some 64 |};
                   {| loaded := 16; total := Some 64 |};
                   {| loaded := 40; total := Some 64 |};
                   {| loaded := 64; total := Some 64 |} ];
     settled := inl scores |}.

Definition leader (name : string) (acc : float) : Leaderboard.LeaderboardEntry :=
  {| Leaderboard.user_id := name; Leaderboard.item_accuracy := acc;
     Leaderboard.l0_accuracy := None; Leaderboard.l1_accuracy := None;
     Leaderboard.l2_accuracy := None; Leaderboard.l3_accuracy := None;
     Leaderboard.l4_accuracy := None; Leaderboard.brand_accuracy := None;
     Leaderboard.timestamp := "2024-01-01T00:00:00Z" |}.

Definition four_leaders : list Leaderboard.LeaderboardEntry :=
  [leader "ada" 0.9%float; leader "bob" 0.8%float; leader "cy" 0.7%float;
   leader "dee" 0.6%float].

Definition zero_score : Dashboard.Score :=
  {| Dashboard.item_accuracy := None; Dashboard.accuracy := Some 0%float;
     Dashboard.f1 := None; Dashboard.timestamp := "2024-01-01T00:00:00Z" |}.

Definition half_score : Dashboard.Score :=
  {| Dashboard.item_accuracy := Some 0.25%float; Dashboard.accuracy := Some 0.5%float;
     Dashboard.f1 := Some 0.5%float; Dashboard.timestamp := "2024-01-02T00:00:00Z" |}.

Definition server_stats : Dashboard.UserStats :=
  {| Dashboard.total_submissions := Some 7; Dashboard.best_f1 := Some 0.5%float;
     Dashboard.uploads_today := Some 2; Dashboard.submissions_remaining := Some 9;
     Dashboard.max_daily_submissions := None; Dashboard.next_reset := None |}.

Definition server_quota : Dashboard.RemainingData :=
  {| Dashboard.rd_submissions_remaining := Some 3;
     Dashboard.rd_max_daily_submissions := Some 5;
     Dashboard.rd_next_reset := Some "2024-01-02T00:00:00Z" |}.

Definition dashboard_ok : Dashboard.Answer :=
  {| Dashboard.scores_reply :=
       inl {| Dashboard.sd_scores := [half_score; zero_score];
              Dashboard.sd_stats := Some server_stats |};
     Dashboard.remaining_reply := inl server_quota;
     Dashboard.remaining_rejects_first := false |}.

Definition dashboard_half_failed : Dashboard.Answer :=
  {| Dashboard.scores_reply :=
       inl {| Dashboard.sd_scores := [half_score]; Dashboard.sd_stats := Some server_stats |};
     Dashboard.remaining_reply :=
       inr {| response := Some {| status := 500; data := Some server_error_body |} |};
     Dashboard.remaining_rejects_first := false |}.

End Vocabulary.

(** ** Helper lemmas on the upload page *)

Section UploadFacts.
Import JS Upload.
Context `{Host}.

#[local] Arguments upload_failed : simpl never.

Lemma split_cons (sep : ascii) (s : string) :
  exists h t, split sep s = h :: t.
Proof.
  induction s as [|c r IH]; simpl.
  - eauto.
  - destruct (Ascii.eqb c sep); [eauto|].
    destruct IH as (h & t & ->). eauto.
Qed.

(** [rows[0]] of the preview is the header row of the text. *)
Lemma first_row_is_header (text : string) :
  nth 0 (slice0 5 (split newline text)) EmptyString = header_row text.
Proof.
  unfold header_row, slice0.
  destruct (split_cons newline text) as (h & t & ->). reflexivity.
Qed.

Lemma rows_nonempty (text : string) :
  (0 <? List.length (slice0 5 (split newline text)))%nat = true.
Proof.
  unfold slice0.
  destruct (split_cons newline text) as (h & t & ->). reflexivity.
Qed.

(** Progress events touch nothing but [uploadProgress] and never throw. *)
Lemma for_each_progress (evs : list ProgressEvent) (p : Page) :
  exists n, for_each onUploadProgress evs p = (exec (setUploadProgress n) p, Ok tt).
Proof.
  revert p. induction evs as [|e r IH]; intros p.
  - exists (uploadProgress p). destruct p; reflexivity.
  - simpl. unfold bind at 1.
    assert (Hstep : exists m, onUploadProgress e p = (exec (setUploadProgress m) p, Ok tt)).
    { unfold onUploadProgress. destruct (total e) as [t|].
      - destruct (t =? 0).
        + exists (uploadProgress p). destruct p; reflexivity.
        + eexists. reflexivity.
      - exists (uploadProgress p). destruct p; reflexivity. }
    destruct Hstep as (m & ->).
    destruct (IH (exec (setUploadProgress m) p)) as (n & ->).
    exists n. reflexivity.
Qed.

(** [handleUpload] with a file selected, spelled out: the submit, the
    request, the progress, and then one of the two ways it ends. *)
Lemma handleUpload_selected (a : Answer) (p : Page) (f : File) :
  file p = Some f ->
  exists n,
    let q := exec (setIsUploading true ;; send (POST UPLOAD_PATH f) ;;
                   setUploadProgress n) p in
    handleUpload a p =
    match settled a with
    | inl r => (exec (upload_succeeded r ;; setIsUploading false) q, Ok tt)
    | inr e =>
        (exec (setIsUploading false) (exec (upload_failed (Rejected e)) q),
         outcome (upload_failed (Rejected e)) q)
    end.
Proof.
  intros Hf.
  destruct (for_each_progress (progress a)
              (exec (setIsUploading true ;; setUploadProgress 0 ;;
                     send (POST UPLOAD_PATH f)) p)) as (n & Hn).
  exists n. unfold exec in *.
  unfold handleUpload, try_finally, try_catch, axios_post, outcome.
  unfold bind, gets, setIsUploading, setUploadProgress, send, modify in *.
  rewrite Hf. simpl in *. rewrite Hn.
  destruct (settled a) as [r|e]; simpl; rewrite ?Hf.
  - reflexivity.
  - destruct (upload_failed (Rejected e) _) as [q' [[]|ex]]; reflexivity.
Qed.

End UploadFacts.

Section UploadInvariants.
Import JS Upload.
Context `{Host}.

#[local] Arguments upload_failed : simpl never.

(** The [catch] block shows one error toast, or throws before showing
    any; it changes nothing else. *)
Lemma upload_failed_cases (x : Exn) (q : Page) :
  upload_failed x q = (q, Throw TypeError) \/
  exists m, upload_failed x q = (exec (toast_error m) q, Ok tt).
Proof.
  unfold upload_failed.
  destruct (match match response_of x with
                  | Some r => Some (status r)
                  | None => None
                  end with
            | Some s => s =? 429
            | None => false
            end).
  - destruct (match response_of x with Some r => data r | None => None end).
    + right. eexists. reflexivity.
    + left. reflexivity.
  - right. eexists. reflexivity.
Qed.

(** [handleUpload] keeps the selection and the preview, starts no read,
    and sends exactly one request when a file is selected, none
    otherwise. *)
Lemma handleUpload_frame (a : Answer) (p : Page) :
  let p' := exec (handleUpload a) p in
  file p' = file p /\ csvPreview p' = csvPreview p /\ reads p' = reads p /\
  requests p' =
    (requests p ++ match file p with
                   | Some f => [POST UPLOAD_PATH f]
                   | None => []
                   end)%list.
Proof.
  destruct (file p) as [f|] eqn:Hf.
  - destruct (handleUpload_selected a p f Hf) as (n & Hn).
    cbv zeta in Hn.
    set (q := exec (setIsUploading true ;; send (POST UPLOAD_PATH f) ;;
                    setUploadProgress n) p) in Hn.
    assert (Hq : file q = file p /\ csvPreview q = csvPreview p /\
                 reads q = reads p /\
                 requests q = (requests p ++ [POST UPLOAD_PATH f])%list)
      by (subst q; simpl; auto).
    clearbody q. destruct Hq as (Q1 & Q2 & Q3 & Q4). rewrite Hf in Q1.
    unfold exec at 1. rewrite Hn.
    destruct (settled a) as [r|e].
    + simpl. auto.
    + destruct (upload_failed_cases (Rejected e) q) as [E|(m & E)];
        unfold exec, outcome; rewrite E; simpl; auto.
  - unfold exec, handleUpload, bind, gets. rewrite Hf. simpl.
    rewrite Hf, app_nil_r. auto.
Qed.

(** [validateAndSetFile] selects the file exactly when it has a CSV name
    or type and is within the size limit; it sends nothing. *)
Lemma validateAndSetFile_file (f : File) (p : Page) :
  let p' := exec (validateAndSetFile f) p in
  file p' = (if is_csv f && within_limit f then Some f else file p) /\
  requests p' = requests p.
Proof.
  unfold exec, validateAndSetFile, is_csv, within_limit.
  destruct (endsWith ".csv" (name f)); destruct (String.eqb (type f) "text/csv");
    simpl; try (destruct (Z.gtb_spec (size f) MAX_SIZE);
                destruct (Z.leb_spec (size f) MAX_SIZE); try lia; simpl; auto);
    auto.
Qed.

Lemma reader_onload_frame (res : option string) (p : Page) :
  let p' := exec (reader_onload res) p in
  file p' = file p /\ requests p' = requests p.
Proof.
  unfold exec, reader_onload, bind, setCsvPreview, modify. simpl.
  repeat match goal with
         | |- context [if ?c then _ else _] => destruct c
         end; simpl; auto.
Qed.

Lemma only_accepted_step (act : Action) (p : Page) :
  only_accepted p -> only_accepted (rerender (exec (handler act) p)).
Proof.
  intros [Hsel Hsent].
  assert (Hval : forall f q, only_accepted q -> only_accepted (exec (validateAndSetFile f) q)).
  { intros f q [Hs1 Hs2].
    destruct (validateAndSetFile_file f q) as [Ef Er].
    split.
    - intros g. rewrite Ef.
      destruct (is_csv f && within_limit f) eqn:E; [intros [= <-]; exact E | apply Hs1].
    - intros path g. rewrite Er. apply Hs2. }
  assert (Hgoal : only_accepted (exec (handler act) p)).
  { destruct act as [answer| | |files|files| |a| ]; simpl handler.
    - split; [destruct answer; exact Hsel|].
      intros path g. destruct answer; simpl; rewrite in_app_iff;
        (intros [Hin|[Hin|[]]]; [eapply Hsent; exact Hin | discriminate Hin]).
    - split; assumption.
    - split; assumption.
    - destruct files as [|f r]; [split; assumption|].
      apply (Hval f (exec (setIsDragging false) p)). split; assumption.
    - destruct files as [|f r]; [split; assumption|].
      apply Hval. split; assumption.
    - unfold FileReader_load, exec, bind, gets.
      destruct (reads p) as [|f r] eqn:Hr; [split; assumption|].
      change (only_accepted
                (exec (reader_onload (Some (content f))) (exec (setReads r) p))).
      destruct (reader_onload_frame (Some (content f)) (exec (setReads r) p)) as [Ef Er].
      split; [intros g; rewrite Ef; apply Hsel|intros path g; rewrite Er; apply Hsent].
    - destruct (handleUpload_frame a p) as (Ef & _ & _ & Er).
      split.
      + intros g. rewrite Ef. apply Hsel.
      + intros path g. rewrite Er, in_app_iff. intros [Hin|Hin].
        * eapply Hsent; exact Hin.
        * destruct (file p) as [f|] eqn:Hf; [|destruct Hin].
          destruct Hin as [[= _ <-]|[]]. apply Hsel. reflexivity.
    - split; [intros g; discriminate|exact Hsent]. }
  destruct Hgoal as [G1 G2]. split; [exact G1|exact G2].
Qed.

Lemma only_accepted_run (acts : list Action) (p : Page) :
  only_accepted p -> only_accepted (run acts p).
Proof.
  revert p. induction acts as [|act r IH]; intros p Hp; simpl.
  - exact Hp.
  - apply IH, only_accepted_step, Hp.
Qed.

Lemma only_accepted_initial : only_accepted Upload.initial.
Proof. split; [intros g; discriminate|intros path g []]. Qed.

End UploadInvariants.

(** ** File selection (C1, C3, C4, C5) *)

Section Selection.
Import JS Upload.
Context `{Host}.

(** [reader.onload] on a text whose header row lacks [walmart_id]: the
    preview is set and the error toast shown; nothing else changes. *)
Lemma reader_onload_no_id (text : string) (p : Page) :
  includes "walmart_id" (toLowerCase (header_row text)) = false ->
  exec (reader_onload (Some text)) p =
  exec (setCsvPreview (slice0 5 (split newline text)) ;;
        toast_error MSG_NO_WALMART_ID) p.
Proof.
  intros Hno. unfold reader_onload.
  rewrite rows_nonempty, first_row_is_header, Hno. reflexivity.
Qed.

Lemma accepted_file_selected (f : File) (p : Page) :
  is_csv f = true -> within_limit f = true ->
  exec (validateAndSetFile f) p =
  exec (readAsText f ;; setFile (Some f) ;; setResult None) p.
Proof.
  unfold is_csv, within_limit, validateAndSetFile. intros Hc Hs.
  apply orb_true_iff in Hc. apply Z.leb_le in Hs.
  assert (E1 : negb (endsWith ".csv" (name f)) &&
               negb (String.eqb (type f) "text/csv") = false).
  { destruct Hc as [-> | ->]; simpl; [reflexivity | apply andb_false_r]. }
  rewrite E1.
  destruct (Z.gtb_spec (size f) MAX_SIZE); [lia | reflexivity].
Qed.

(** C1 (as the code has it). For every file that passes the extension
    and size checks and whose text has a header row without
    [walmart_id] (in any letter case), selecting the file and reading it
    shows the error [CSV must contain a column named "walmart_id"], but
    the check is advisory: the file stays the pending selection, the
    preview is set, and a later submit sends the file. *)
Theorem missing_walmart_id_is_advisory (f : File) (p : Page) (a : Answer) :
  is_csv f = true ->
  within_limit f = true ->
  includes "walmart_id" (toLowerCase (header_row (content f))) = false ->
  let p' := exec (validateAndSetFile f ;; reader_onload (Some (content f))) p in
  toasts p' = (toasts p ++ [ToastError MSG_NO_WALMART_ID])%list /\
  file p' = Some f /\
  csvPreview p' = slice0 5 (split newline (content f)) /\
  requests p' = requests p /\
  requests (exec (handleUpload a) p') = (requests p ++ [POST UPLOAD_PATH f])%list.
Proof.
  intros Hc Hs Hno.
  assert (E : exec (validateAndSetFile f ;; reader_onload (Some (content f))) p =
              exec (reader_onload (Some (content f))) (exec (validateAndSetFile f) p)).
  { unfold exec, bind. destruct (validateAndSetFile f p) as [q [[]|x]] eqn:Ev.
    - reflexivity.
    - exfalso. unfold validateAndSetFile in Ev.
      repeat match type of Ev with
             | context [if ?c then _ else _] => destruct c
             end; discriminate Ev. }
  cbv zeta. rewrite E, reader_onload_no_id, accepted_file_selected by assumption.
  set (p' := exec _ (exec _ p)).
  assert (Hp' : file p' = Some f /\ requests p' = requests p) by (subst p'; simpl; auto).
  destruct Hp' as [F R].
  repeat split; try (subst p'; reflexivity).
  destruct (handleUpload_frame a p') as (_ & _ & _ & Er).
  rewrite Er, F, R. reflexivity.
Qed.

(** C3. A file whose name does not end in [.csv] and whose MIME type is
    not [text/csv] is rejected with the toast [Only CSV files are
    allowed]: no read is started, nothing is sent, the selection is left
    as it was; and whatever happens to a page from its initial state,
    such a file is never the selection and never the body of a request. *)
Theorem non_csv_file_rejected (f : File) (p : Page) :
  endsWith ".csv" (name f) = false ->
  type f <> "text/csv" ->
  let p' := exec (validateAndSetFile f) p in
  (toasts p' = (toasts p ++ [ToastError MSG_ONLY_CSV])%list /\
   file p' = file p /\ requests p' = requests p /\ reads p' = reads p) /\
  forall acts : list Action,
    file (run acts Upload.initial) <> Some f /\
    forall path, ~ In (POST path f) (requests (run acts Upload.initial)).
Proof.
  intros Hn Ht. apply String.eqb_neq in Ht. split.
  - unfold exec, validateAndSetFile. rewrite Hn, Ht. simpl. auto.
  - intros acts.
    destruct (only_accepted_run acts Upload.initial only_accepted_initial) as [I1 I2].
    assert (Hbad : is_csv f && within_limit f = false)
      by (unfold is_csv; rewrite Hn, Ht; reflexivity).
    split.
    + intros Hsel. apply I1 in Hsel. congruence.
    + intros path Hin. apply I2 in Hin. congruence.
Qed.

(** C4 (as the code has it). A file larger than [5 * 1024 * 1024] bytes
    is rejected whatever its content: no read is started, nothing is
    sent, the selection is left as it was, and one error toast is shown,
    the size-limit error when the file passed the CSV check and the
    CSV-only error otherwise (that check comes first); from the initial
    page such a file is never the selection and never sent. *)
Theorem oversized_file_rejected (f : File) (p : Page) :
  size f > MAX_SIZE ->
  let p' := exec (validateAndSetFile f) p in
  (toasts p' =
     (toasts p ++ [ToastError (if is_csv f then MSG_TOO_BIG else MSG_ONLY_CSV)])%list /\
   file p' = file p /\ requests p' = requests p /\ reads p' = reads p) /\
  forall acts : list Action,
    file (run acts Upload.initial) <> Some f /\
    forall path, ~ In (POST path f) (requests (run acts Upload.initial)).
Proof.
  intros Hbig. split.
  - unfold exec, validateAndSetFile, is_csv.
    destruct (endsWith ".csv" (name f)); destruct (String.eqb (type f) "text/csv");
      simpl; try (destruct (Z.gtb_spec (size f) MAX_SIZE); [|lia]); simpl; auto.
  - intros acts.
    destruct (only_accepted_run acts Upload.initial only_accepted_initial) as [I1 I2].
    assert (Hbad : is_csv f && within_limit f = false).
    { unfold within_limit. destruct (Z.leb_spec (size f) MAX_SIZE); [lia|].
      apply andb_false_r. }
    split.
    + intros Hsel. apply I1 in Hsel. congruence.
    + intros path Hin. apply I2 in Hin. congruence.
Qed.

(** C5. When the header row has [walmart_id] but lacks at least one of
    the six required columns (all matched on the lower-cased header),
    the toast is [CSV is missing required columns: ] followed by the
    missing names joined with a comma and a space: exactly the required
    columns the header lacks, in the order of [requiredColumns]. *)
Theorem missing_columns_listed_in_order (text : string) (p : Page) :
  let headers := toLowerCase (header_row text) in
  includes "walmart_id" headers = true ->
  (exists col, In col requiredColumns /\ includes col headers = false) ->
  exists missing : list string,
    toasts (exec (reader_onload (Some text)) p) =
      (toasts p ++ [ToastError (MSG_MISSING_PREFIX ++ join ", " missing)])%list /\
    (forall col, In col missing <->
                 In col requiredColumns /\ includes col headers = false) /\
    sublist missing requiredColumns.
Proof.
  intros headers Hid (col & Hin & Hmiss).
  exists (List.filter (fun c => negb (includes c headers)) requiredColumns).
  assert (Hne : (0 <? List.length
                   (List.filter (fun c => negb (includes c headers)) requiredColumns))%nat
                = true).
  { apply Nat.ltb_lt.
    assert (Hc : In col (List.filter (fun c => negb (includes c headers)) requiredColumns))
      by (apply filter_In; rewrite Hmiss; auto).
    destruct (List.filter _ requiredColumns); [destruct Hc | simpl; lia]. }
  split; [|split].
  - unfold exec, reader_onload.
    rewrite rows_nonempty, first_row_is_header. fold headers.
    unfold bind at 1. simpl setCsvPreview. cbv beta iota.
    rewrite Hid. simpl negb. cbv iota. rewrite Hne. reflexivity.
  - intros c. rewrite filter_In, negb_true_iff. tauto.
  - generalize requiredColumns as cols. intros cols.
    induction cols as [|c r IH]; simpl.
    + constructor.
    + destruct (negb (includes c headers)); constructor; exact IH.
Qed.

End Selection.

(** ** The upload and its result (C2, C6, C7, C8, C10) *)

Section Uploading.
Import JS Upload.
Context `{Host}.

#[local] Arguments upload_failed : simpl never.



(** [Math_round_div a b] is the integer nearest to [a / b], a half
    going up. *)
Lemma Math_round_div_nearest (a b : Z) :
  0 < b ->
  let n := Math_round_div a b in
  2 * b * n <= 2 * a + b < 2 * b * (n + 1).
Proof.
  intros Hb n. subst n. unfold Math_round_div.
  pose proof (Z.div_mod (2 * a + b) (2 * b) ltac:(lia)) as E.
  pose proof (Z.mod_pos_bound (2 * a + b) (2 * b) ltac:(lia)) as B.
  lia.
Qed.


Lemma onUploadProgress_total (e : ProgressEvent) (q : Page) :
  onUploadProgress e q = (exec (onUploadProgress e) q, Ok tt).
Proof.
  unfold exec, onUploadProgress.
  destruct (total e) as [t|]; [destruct (t =? 0)|]; reflexivity.
Qed.

Lemma progress_pages_cons (evs : list ProgressEvent) (q : Page) :
  exists t, progress_pages evs q = q :: t.
Proof. destruct evs; simpl; eauto. Qed.

(** The progress callbacks of [axios.post] leave the last page of
    [progress_pages]. *)
Lemma for_each_progress_pages (evs : list ProgressEvent) (q d : Page) :
  for_each onUploadProgress evs q = (List.last (progress_pages evs q) d, Ok tt).
Proof.
  revert q. induction evs as [|e r IH]; intros q.
  - reflexivity.
  - simpl for_each. unfold bind. rewrite onUploadProgress_total, IH.
    simpl progress_pages.
    destruct (progress_pages_cons r (exec (onUploadProgress e) q)) as (t & ->).
    reflexivity.
Qed.

(** [handleUpload] goes through [upload_pages], and ends from the last
    of them. *)
Lemma handleUpload_after_pages (a : Answer) (p : Page) (f : File) :
  file p = Some f ->
  let q := List.last (upload_pages a p) p in
  handleUpload a p =
  match settled a with
  | inl r => (exec (upload_succeeded r ;; setIsUploading false) q, Ok tt)
  | inr e =>
      (exec (setIsUploading false) (exec (upload_failed (Rejected e)) q),
       outcome (upload_failed (Rejected e)) q)
  end.
Proof.
  intros Hf. cbv zeta.
  pose proof (for_each_progress_pages (progress a)
                (exec (setIsUploading true ;; setUploadProgress 0 ;;
                       send (POST UPLOAD_PATH f)) p) p) as Hn.
  unfold upload_pages. rewrite Hf.
  set (q := List.last _ _) in *. clearbody q.
  unfold exec in *.
  unfold handleUpload, try_finally, try_catch, axios_post, outcome.
  unfold bind, gets, setIsUploading, setUploadProgress, send, modify in *.
  rewrite Hf. simpl in *. rewrite Hn.
  destruct (settled a) as [r|e]; simpl.
  - reflexivity.
  - destruct (upload_failed (Rejected e) q) as [q' [[]|ex]]; reflexivity.
Qed.

(** C2 (as the code has it). [handleRemoveFile] discards the selection:
    the file becomes [null] and the preview empty. An upload, whether it
    succeeds or fails, leaves the file and the preview as they were. *)
Theorem selection_discarded_only_on_removal (a : Answer) (p : Page) :
  (file (exec handleRemoveFile p) = None /\
   csvPreview (exec handleRemoveFile p) = []) /\
  (file (exec (handleUpload a) p) = file p /\
   csvPreview (exec (handleUpload a) p) = csvPreview p).
Proof.
  split.
  - split; reflexivity.
  - destruct (handleUpload_frame a p) as (F & C & _). split; assumption.
Qed.

(** C6. After a successful upload whose response has [item_accuracy]
    0.87 (the double nearest to it) and [submissionsRemaining] 3, the
    results card is rendered, shows the item accuracy as [87.00%] and the
    remaining submissions as [3]. *)
Theorem successful_upload_display (a : Answer) (p : Page) (f : File)
    (r : SubmissionResult) :
  file p = Some f ->
  settled a = inl r ->
  Upload.item_accuracy r = 0.87%float ->
  r_submissionsRemaining r = 3 ->
  let p' := exec (handleUpload a) p in
  exists card : ResultCard,
    render_result (result p') = Some card /\
    shown_item_accuracy card = "87.00%" /\
    shown_submissions_remaining card = "3" /\
    submissionsRemaining p' = Some 3.
Proof.
  intros Hf Hs Hacc Hrem.
  destruct (handleUpload_selected a p f Hf) as (n & Hn).
  cbv zeta in *. rewrite Hs in Hn.
  apply (f_equal fst) in Hn. change (fst (handleUpload a p)) with (exec (handleUpload a) p) in Hn.
  rewrite Hn. simpl.
  eexists. split; [reflexivity|]. simpl.
  rewrite Hacc, Hrem. repeat split.
Qed.


(** A 429 that carries no body at all ([data] is [null] or [undefined]):
    reading [serverError.nextReset] throws, so the handler ends with a
    [TypeError] and shows no toast; the [finally] block still ends the
    upload. *)
Lemma rate_limit_without_body_throws (a : Answer) (p : Page) (f : File) :
  file p = Some f ->
  settled a = inr {| response := Some {| status := 429; data := None |} |} ->
  outcome (handleUpload a) p = Throw TypeError /\
  toasts (exec (handleUpload a) p) = toasts p /\
  isUploading (exec (handleUpload a) p) = false.
Proof.
  intros Hf Hs.
  destruct (handleUpload_selected a p f Hf) as (n & Hn).
  cbv zeta in Hn. rewrite Hs in Hn.
  unfold outcome at 1, exec. rewrite Hn. repeat split.
Qed.

(** C8 (as the code has it). When the upload is rejected and the status
    is not 429 (or no response came), the toast is the [error] field of
    the body when the body has one that is not empty, and the generic
    message otherwise; one request was sent and no other follows, the
    upload is over and the file is still selected. *)
Theorem upload_failure_message (a : Answer) (p : Page) (f : File) (e : AxiosError) :
  file p = Some f ->
  settled a = inr e ->
  status_of e <> Some 429 ->
  let p' := exec (handleUpload a) p in
  toasts p' =
    (toasts p ++
     [ToastError match server_error_field e with
                 | Some m => if String.eqb m EmptyString then MSG_UPLOAD_FAILED else m
                 | None => MSG_UPLOAD_FAILED
                 end])%list /\
  requests p' = (requests p ++ [POST UPLOAD_PATH f])%list /\
  isUploading p' = false /\
  file p' = Some f.
Proof.
  intros Hf Hs Hst.
  destruct (handleUpload_selected a p f Hf) as (n & Hn).
  cbv zeta in *. rewrite Hs in Hn.
  apply (f_equal fst) in Hn. change (fst (handleUpload a p)) with (exec (handleUpload a) p) in Hn.
  rewrite Hn. clear Hn.
  unfold exec, upload_failed, status_of, server_error_field in *. simpl.
  destruct (response e) as [r|]; simpl.
  - destruct (Z.eqb_spec (status r) 429) as [E|E]; [rewrite E in Hst; congruence|].
    destruct (data r) as [b|]; simpl; [|rewrite Hf; auto].
    destruct (error b) as [m|]; simpl; [|rewrite Hf; auto].
    destruct (String.eqb m EmptyString); simpl; rewrite Hf; auto.
  - rewrite Hf; auto.
Qed.


End Uploading.

(** ** The leaderboard's timer (C9) *)

Section Refresh.
Import Leaderboard.

(** Only mounting and unmounting touch the timers. *)
Lemma step_timers (e : Event) (v : View) : timers (step e v) = timers v.
Proof.
  destruct e as [id|a now|]; simpl; [|destruct a|]; try reflexivity.
  destruct (timers v !! id) as [t|]; [destruct t as [d []]|]; reflexivity.
Qed.

Lemma run_timers (es : list Event) (v : View) : timers (run es v) = timers v.
Proof.
  revert v. induction es as [|e r IH]; intros v; simpl; [reflexivity|].
  rewrite IH. apply step_timers.
Qed.

(** A timer that is not set sends nothing when its delay elapses, and a
    request that settles sends nothing either. *)
Lemma step_quiet (e : Event) (v : View) :
  match e with
  | Elapsed id => timers v !! id = None
  | Settled _ _ => True
  | RefreshClicked => False
  end ->
  requests (step e v) = requests v.
Proof.
  destruct e as [id|a now|]; simpl.
  - intros ->. reflexivity.
  - intros _. destruct a; reflexivity.
  - intros [].
Qed.

Lemma run_quiet (es : list Event) (v : View) :
  Forall (fun e => match e with
                   | Elapsed id => timers v !! id = None
                   | Settled _ _ => True
                   | RefreshClicked => False
                   end) es ->
  requests (run es v) = requests v.
Proof.
  revert v. induction es as [|e r IH]; intros v Hq; simpl; [reflexivity|].
  inversion Hq as [|e' r' He Hr]; subst.
  rewrite IH.
  - apply step_quiet. exact He.
  - rewrite step_timers. exact Hr.
Qed.

(** C9. Mounting sets one interval timer of two minutes whose callback
    fetches the leaderboard; the cleanup run at unmount clears it, so
    however often its delay elapses afterwards, and whatever requests in
    flight settle, no request is sent; and on a page with no other timer
    the same holds for every timer that elapses after the unmount. *)
Theorem unmount_stops_auto_refresh (v : View) (during : list Event) :
  let mounted := fst (mount v) in
  let intervalId := snd (mount v) in
  let gone := unmount intervalId (run during mounted) in
  timers mounted !! intervalId =
    Some {| delay := 120000; callback := AutoRefresh |} /\
  timers gone !! intervalId = None /\
  (forall after : list Event,
      forallb (only_timer intervalId) after = true ->
      requests (run after gone) = requests gone) /\
  (timers v = ∅ ->
   forall after : list Event,
     forallb unattended after = true ->
     requests (run after gone) = requests gone).
Proof.
  intros mounted intervalId gone.
  assert (Hgone : timers gone = delete intervalId (timers mounted)).
  { subst gone. unfold unmount, clearInterval. simpl. rewrite run_timers. reflexivity. }
  assert (Hcleared : timers gone !! intervalId = None)
    by (rewrite Hgone; apply lookup_delete_eq).
  split; [|split; [|split]].
  - subst mounted intervalId. unfold mount, setInterval. simpl.
    apply lookup_insert_eq.
  - exact Hcleared.
  - intros after Hafter. apply run_quiet.
    induction after as [|e r IH]; [constructor|].
    simpl in Hafter. apply andb_true_iff in Hafter as [He Hr].
    constructor; [|apply IH; exact Hr].
    destruct e as [k|a now|]; [|exact I|discriminate He].
    apply Nat.eqb_eq in He. subst k. exact Hcleared.
  - intros Hempty after Hafter. apply run_quiet.
    assert (Hnone : timers gone = ∅).
    { rewrite Hgone. subst mounted intervalId. unfold mount, setInterval. simpl.
      rewrite Hempty. rewrite delete_insert_eq. apply delete_empty. }
    clearbody gone. clear -Hnone Hafter.
    induction after as [|e r IH]; [constructor|].
    simpl in Hafter. apply andb_true_iff in Hafter as [He Hr].
    constructor; [|apply IH; exact Hr].
    destruct e as [id|a now|]; [|exact I|discriminate He].
    rewrite Hnone. apply lookup_empty.
Qed.

End Refresh.

(** ** The statements at concrete inputs *)

Section Instances.
Import JS Upload.

(** The double nearest to 0.87, which the response's [item_accuracy]
    parses to: it is [7836263351624663 * 2^-53], within half a unit in
    the last place of 87/100. *)
Lemma parsed_0_87 :
  Prim2SF 0.87%float = S754_finite false 7836263351624663 (-53) /\
  2 * Z.abs (100 * 7836263351624663 - 87 * 2 ^ 53) <= 100.
Proof. split; [reflexivity | vm_compute; discriminate]. Qed.

(** [0.87 * 100] is exactly 87 in binary64. *)
Lemma product_0_87_100 :
  Prim2SF (0.87 * 100)%float = S754_finite false (87 * 2 ^ 46) (-46).
Proof. reflexivity. Qed.


(** C1, refuted as stated: [no_id_csv] passes both checks and its header
    row lacks [walmart_id], the error is shown, and yet the file is the
    pending selection. *)
Lemma header_error_keeps_file :
  ~ (forall (f : File) (p : Page),
        is_csv f = true ->
        within_limit f = true ->
        includes "walmart_id" (toLowerCase (header_row (content f))) = false ->
        let p' := exec (validateAndSetFile f ;; reader_onload (Some (content f))) p in
        toasts p' = (toasts p ++ [ToastError MSG_NO_WALMART_ID])%list /\
        file p' <> Some f).
Proof.
  intros Claim.
  destruct (Claim no_id_csv Upload.initial eq_refl eq_refl eq_refl) as [_ Hfile].
  apply Hfile. reflexivity.
Qed.

Lemma missing_walmart_id_is_advisory_witness :
  toasts (exec (validateAndSetFile no_id_csv ;;
                reader_onload (Some (content no_id_csv))) Upload.initial) =
    [ToastError MSG_NO_WALMART_ID] /\
  file (exec (validateAndSetFile no_id_csv ;;
              reader_onload (Some (content no_id_csv))) Upload.initial) =
    Some no_id_csv.
Proof.
  destruct (missing_walmart_id_is_advisory (H := plain_host) no_id_csv Upload.initial
              accepted_answer eq_refl eq_refl eq_refl) as (T & F & _).
  split; [exact T | exact F].
Defined.

(** C2, refuted as stated: after an upload of [good_csv] that succeeds
    the file is not [null]; the same holds after one that fails. *)
Lemma upload_keeps_selection :
  ~ (forall (H : Host) (a : Answer) (p : Page) (f : File),
        file p = Some f ->
        file (exec (handleUpload a) p) = None /\
        csvPreview (exec (handleUpload a) p) = []).
Proof.
  intros Claim.
  destruct (Claim plain_host accepted_answer (chosen good_csv) good_csv eq_refl)
    as [Hfile _].
  discriminate Hfile.
Qed.

Lemma non_csv_file_rejected_witness :
  toasts (exec (validateAndSetFile photo) Upload.initial) = [ToastError MSG_ONLY_CSV] /\
  file (exec (validateAndSetFile photo) Upload.initial) = None.
Proof.
  destruct (non_csv_file_rejected (H := plain_host) photo Upload.initial eq_refl
              ltac:(discriminate)) as ((T & F & _) & _).
  split; [exact T | exact F].
Defined.

(** C4, refuted as stated: [big_text] is over the limit, and the error
    it gets is not the size-limit error. *)
Lemma oversized_text_gets_csv_error :
  ~ (forall (f : File) (p : Page),
        size f > MAX_SIZE ->
        let p' := exec (validateAndSetFile f) p in
        toasts p' = (toasts p ++ [ToastError MSG_TOO_BIG])%list /\
        file p' = file p).
Proof.
  intros Claim.
  destruct (Claim big_text Upload.initial eq_refl) as [Htoast _].
  discriminate Htoast.
Qed.

Lemma oversized_file_rejected_witness :
  toasts (exec (validateAndSetFile big_csv) Upload.initial) = [ToastError MSG_TOO_BIG] /\
  toasts (exec (validateAndSetFile big_text) Upload.initial) = [ToastError MSG_ONLY_CSV] /\
  file (exec (validateAndSetFile big_csv) Upload.initial) = None.
Proof.
  destruct (oversized_file_rejected (H := plain_host) big_csv Upload.initial eq_refl)
    as ((T & F & _) & _).
  destruct (oversized_file_rejected (H := plain_host) big_text Upload.initial eq_refl)
    as ((T' & _) & _).
  split; [exact T | split; [exact T' | exact F]].
Defined.

(** The header of [partial_csv] has [walmart_id], the brand, L0 and L2:
    the toast names L1, L3 and L4, in that order. *)
Example partial_csv_message :
  toasts (exec (reader_onload (Some (content partial_csv))) Upload.initial) =
    [ToastError "CSV is missing required columns: l1_category, l3_category, l4_category"].
Proof. reflexivity. Qed.

Lemma missing_columns_listed_in_order_witness :
  exists missing : list string,
    toasts (exec (reader_onload (Some (content partial_csv))) Upload.initial) =
      [ToastError (MSG_MISSING_PREFIX ++ join ", " missing)] /\
    (forall col, In col missing <->
                 In col requiredColumns /\
                 includes col (toLowerCase (header_row (content partial_csv))) = false) /\
    sublist missing requiredColumns.
Proof.
  exact (missing_columns_listed_in_order (content partial_csv) Upload.initial
           eq_refl
           (ex_intro _ "l1_category"
              (conj (or_intror (or_intror (or_introl eq_refl))) eq_refl))).
Defined.

Lemma successful_upload_display_witness :
  option_map (fun c => (shown_item_accuracy c, shown_submissions_remaining c))
    (render_result (H := plain_host)
       (result (exec (handleUpload (H := plain_host) accepted_answer)
                     (chosen good_csv)))) =
  Some ("87.00%", "3").
Proof.
  destruct (successful_upload_display (H := plain_host) accepted_answer
              (chosen good_csv) good_csv scores eq_refl eq_refl eq_refl eq_refl)
    as (card & R & A & S & _).
  rewrite R. simpl. rewrite A, S. reflexivity.
Defined.


Lemma rate_limit_without_body_throws_witness :
  outcome (handleUpload (H := plain_host) (rejection 429 None)) (chosen good_csv) =
    Throw TypeError /\
  toasts (exec (handleUpload (H := plain_host) (rejection 429 None)) (chosen good_csv)) = [].
Proof.
  destruct (rate_limit_without_body_throws (H := plain_host) (rejection 429 None)
              (chosen good_csv) good_csv eq_refl eq_refl) as (O & T & _).
  split; [exact O | exact T].
Defined.

(** C8, refuted as stated: a body whose [error] field is there but empty
    gets the generic message, not the field. *)
Lemma empty_error_gets_fallback :
  ~ (forall (H : Host) (a : Answer) (p : Page) (f : File) (r : Response)
            (b : ErrorBody) (m : string),
        file p = Some f ->
        settled a = inr {| response := Some r |} ->
        status r <> 429 ->
        data r = Some b ->
        error b = Some m ->
        toasts (exec (handleUpload a) p) = (toasts p ++ [ToastError m])%list).
Proof.
  intros Claim.
  pose proof (Claim plain_host (rejection 500 (Some empty_error_body))
                (chosen good_csv) good_csv
                {| status := 500; data := Some empty_error_body |}
                empty_error_body EmptyString
                eq_refl eq_refl ltac:(discriminate) eq_refl eq_refl) as Htoast.
  discriminate Htoast.
Qed.

Lemma upload_failure_message_witness :
  toasts (exec (handleUpload (H := plain_host) (rejection 500 (Some server_error_body)))
               (chosen good_csv)) = [ToastError "Invalid CSV format"] /\
  toasts (exec (handleUpload (H := plain_host) (rejection 500 (Some empty_error_body)))
               (chosen good_csv)) = [ToastError MSG_UPLOAD_FAILED] /\
  requests (exec (handleUpload (H := plain_host) (rejection 500 (Some server_error_body)))
                 (chosen good_csv)) = [POST UPLOAD_PATH good_csv].
Proof.
  destruct (upload_failure_message (H := plain_host)
              (rejection 500 (Some server_error_body)) (chosen good_csv) good_csv
              {| response := Some {| status := 500; data := Some server_error_body |} |}
              eq_refl eq_refl ltac:(discriminate)) as (T & R & _).
  destruct (upload_failure_message (H := plain_host)
              (rejection 500 (Some empty_error_body)) (chosen good_csv) good_csv
              {| response := Some {| status := 500; data := Some empty_error_body |} |}
              eq_refl eq_refl ltac:(discriminate)) as (T' & _).
  split; [exact T | split; [exact T' | exact R]].
Defined.

(** The progress shown while [accepted_answer] comes in. *)
Example accepted_answer_progress :
  List.map displayed_progress (upload_pages accepted_answer (chosen good_csv)) =
  [Some 0; Some 50; Some 50; Some 100].
Proof. reflexivity. Qed.


End Instances.

Section RefreshInstances.
Import Leaderboard.

Lemma unmount_stops_auto_refresh_witness :
  let gone := unmount (snd (mount Leaderboard.initial))
                (run [Elapsed 0; Settled Unexpected 5; RefreshClicked]
                     (fst (mount Leaderboard.initial))) in
  List.length (requests gone) = 3%nat /\
  requests (run [Elapsed 0; Settled (Failed None) 9; Elapsed 0] gone) = requests gone /\
  requests (run [Elapsed 0; Settled (Failed None) 9; Elapsed 1; Elapsed 0] gone) =
    requests gone.
Proof.
  destruct (unmount_stops_auto_refresh Leaderboard.initial
              [Elapsed 0; Settled Unexpected 5; RefreshClicked])
    as (_ & _ & Hown & Hquiet).
  split; [reflexivity|split].
  - exact (Hown [Elapsed 0; Settled (Failed None) 9; Elapsed 0] eq_refl).
  - exact (Hquiet eq_refl [Elapsed 0; Settled (Failed None) 9; Elapsed 1; Elapsed 0] eq_refl).
Defined.

End RefreshInstances.

(** * Further properties of the upload page *)

Section UploadMore.
Import JS Upload.
Context `{Host}.

#[local] Arguments upload_failed : simpl never.

(** However the upload ends (a result, an error toast, or an exception
    out of the [catch] block), the [finally] block has reset
    [isUploading]; without a file the flag is not touched. *)
Theorem upload_always_ends (a : Answer) (p : Page) :
  isUploading (exec (handleUpload a) p) =
  match file p with
  | Some _ => false
  | None => isUploading p
  end.
Proof.
  destruct (file p) as [f|] eqn:Hf.
  - destruct (handleUpload_selected a p f Hf) as (n & Hn).
    cbv zeta in Hn. unfold exec at 1. rewrite Hn.
    destruct (settled a) as [r|e]; reflexivity.
  - unfold exec, handleUpload, bind, gets. rewrite Hf. reflexivity.
Qed.

(** Removing the file and then submitting: nothing is sent, the toast
    asks for a file, and no result card is left. *)
Theorem submit_after_removal (a : Answer) (p : Page) :
  let p' := exec (handleRemoveFile ;; handleUpload a) p in
  requests p' = requests p /\
  toasts p' = (toasts p ++ [ToastError MSG_NO_FILE])%list /\
  file p' = None /\
  render_result (result p') = None /\
  shown_preview p' = None.
Proof. cbv zeta. repeat split. Qed.

Lemma app_one_neq {A} (l : list A) (x : A) : (l ++ [x])%list <> l.
Proof.
  intros E. apply (f_equal (@List.length _)) in E.
  rewrite List.length_app in E. simpl in E. lia.
Qed.

(** [validateAndSetFile] is silent exactly for the files it accepts: a
    CSV name or MIME type and at most [5 * 1024 * 1024] bytes (the limit
    itself included). An accepted file becomes the selection, one read of
    it starts and the previous result is dropped; a refused file changes
    nothing but the toasts. *)
Theorem file_accepted_iff (f : File) (p : Page) :
  let p' := exec (validateAndSetFile f) p in
  (toasts p' = toasts p <->
   (endsWith ".csv" (name f) = true \/ type f = "text/csv") /\ size f <= MAX_SIZE) /\
  (toasts p' = toasts p ->
   file p' = Some f /\ reads p' = (reads p ++ [f])%list /\ result p' = None) /\
  (toasts p' <> toasts p ->
   file p' = file p /\ reads p' = reads p /\ result p' = result p).
Proof.
  pose proof (@app_one_neq Toast) as Hneq.
  cbv zeta. unfold exec, validateAndSetFile.
  destruct (endsWith ".csv" (name f)) eqn:En;
    destruct (String.eqb_spec (type f) "text/csv") as [Et|Et];
    destruct (Z.gtb_spec (size f) MAX_SIZE) as [Hs|Hs]; simpl;
    (split; [split|split]);
    try (intros E; exfalso; exact (Hneq _ _ E));
    try (intros [[E|E] E']; first [discriminate E | contradiction | lia]);
    try (intros; exfalso; congruence);
    try (intros; split; [auto|lia]);
    auto.
Qed.

(** The drop of several files looks at the first one only, and ends the
    drag highlight whatever was dropped. *)
Theorem drop_takes_first_file (f : File) (rest files : list File) (p : Page) :
  exec (handleDrop (f :: rest)) p = exec (handleDrop [f]) p /\
  exec (handleDrop (f :: rest)) p = exec (validateAndSetFile f) (exec handleDragLeave p) /\
  isDragging (exec (handleDrop files) p) = false.
Proof.
  split; [reflexivity|]. split; [reflexivity|].
  destruct files as [|g r]; [reflexivity|].
  unfold exec, handleDrop, bind, setIsDragging, modify, validateAndSetFile. simpl.
  repeat match goal with
         | |- context [if ?c then _ else _] => destruct c
         end; reflexivity.
Qed.

(** [reader.onload] shows no toast exactly when the lower-cased header
    row has [walmart_id] and each of the six required columns; otherwise
    it shows exactly one error toast. *)
Theorem header_silent_iff_complete (text : string) (p : Page) :
  let headers := toLowerCase (header_row text) in
  let p' := exec (reader_onload (Some text)) p in
  (toasts p' = toasts p <->
   includes "walmart_id" headers = true /\
   forall col, In col requiredColumns -> includes col headers = true) /\
  (toasts p' = toasts p \/ exists m, toasts p' = (toasts p ++ [ToastError m])%list).
Proof.
  intros headers p'. subst p'. unfold exec, reader_onload.
  rewrite rows_nonempty, first_row_is_header. fold headers.
  unfold bind at 1. simpl setCsvPreview. cbv beta iota.
  destruct (includes "walmart_id" headers) eqn:Hid; simpl negb; cbv iota.
  - destruct (List.filter (fun col => negb (includes col headers)) requiredColumns)
      as [|m ms] eqn:Hf.
    + simpl. split; [|left; reflexivity].
      split; [intros _|reflexivity]. split; [reflexivity|].
      intros col Hin.
      destruct (includes col headers) eqn:E; [reflexivity|].
      assert (Hc : In col (List.filter (fun c => negb (includes c headers)) requiredColumns))
        by (apply filter_In; rewrite E; auto).
      rewrite Hf in Hc. destruct Hc.
    + simpl. split; [|right; eexists; reflexivity].
      split; [intros E; exfalso; exact (app_one_neq _ _ E)|].
      intros [_ Hall]. exfalso.
      assert (Hm : In m (List.filter (fun c => negb (includes c headers)) requiredColumns))
        by (rewrite Hf; left; reflexivity).
      apply filter_In in Hm. destruct Hm as [Hin Hneg].
      rewrite (Hall m Hin) in Hneg. discriminate Hneg.
  - simpl. split; [|right; eexists; reflexivity].
    split; [intros E; exfalso; exact (app_one_neq _ _ E)|].
    intros [E _]. discriminate E.
Qed.

(** The toasts of [reader.onload] depend only on the lower-cased header
    row: two texts whose first lines agree up to letter case get the same
    messages, whatever their data rows. *)
Theorem header_check_ignores_case_and_rows (t1 t2 : string) (p : Page) :
  toLowerCase (header_row t1) = toLowerCase (header_row t2) ->
  toasts (exec (reader_onload (Some t1)) p) = toasts (exec (reader_onload (Some t2)) p).
Proof.
  intros E. unfold exec, reader_onload.
  rewrite !rows_nonempty, !first_row_is_header, E.
  unfold bind, setCsvPreview, modify. simpl.
  repeat match goal with
         | |- context [if ?c then _ else _] => destruct c
         end; reflexivity.
Qed.

End UploadMore.

Section PreviewMore.
Import JS Upload.
Context `{Host}.

Lemma join_cons_char (c : ascii) (h : string) (l : list string) (sep : string) :
  join sep (String c h :: l) = String c (join sep (h :: l)).
Proof. unfold join. destruct l; reflexivity. Qed.

(** Splitting at newlines and joining with newlines gives the text
    back. *)
Lemma join_split (s : string) : join LF (split newline s) = s.
Proof.
  induction s as [|c r IH]; [reflexivity|].
  simpl split. destruct (Ascii.eqb_spec c newline) as [->|Hc].
  - destruct (split_cons newline r) as (h & t & E). rewrite E in *.
    change (join LF (EmptyString :: h :: t)) with (String newline (join LF (h :: t))).
    rewrite IH. reflexivity.
  - destruct (split_cons newline r) as (h & t & E). rewrite E in *.
    rewrite join_cons_char, IH. reflexivity.
Qed.

Lemma startsWith_cons (c : ascii) (x y : string) :
  startsWith (String c x) (String c y) = startsWith x y.
Proof. simpl. rewrite Ascii.eqb_refl. reflexivity. Qed.

(** The first [n] lines, joined, are a prefix of the text. *)
Lemma join_firstn_prefix (n : nat) (s : string) :
  startsWith (join LF (firstn n (split newline s))) s = true.
Proof.
  revert n. induction s as [|c r IH]; intros n.
  - destruct n as [|[|n]]; reflexivity.
  - destruct n as [|n]; [reflexivity|].
    simpl split. destruct (Ascii.eqb_spec c newline) as [->|Hc].
    + simpl firstn.
      destruct (firstn n (split newline r)) as [|h t] eqn:E.
      * reflexivity.
      * change (join LF (EmptyString :: h :: t)) with (String newline (join LF (h :: t))).
        rewrite startsWith_cons. rewrite <- E. apply IH.
    + destruct (split_cons newline r) as (h & t & E). rewrite E.
      simpl firstn. rewrite join_cons_char.
      rewrite startsWith_cons.
      specialize (IH (S n)). rewrite E in IH. exact IH.
Qed.

(** Once an accepted file has been read, the preview shown under its
    name has at most five rows, is a prefix of the file's text, and is
    the whole text when that has at most five lines. *)
Theorem preview_is_prefix (f : File) (p : Page) :
  is_csv f = true ->
  within_limit f = true ->
  let p' := exec (validateAndSetFile f ;; reader_onload (Some (content f))) p in
  exists shown : string,
    shown_preview p' = Some shown /\
    startsWith shown (content f) = true /\
    (List.length (csvPreview p') <= 5)%nat /\
    ((List.length (split newline (content f)) <= 5)%nat -> shown = content f).
Proof.
  intros Hc Hs.
  assert (E : exec (validateAndSetFile f ;; reader_onload (Some (content f))) p =
              exec (reader_onload (Some (content f)))
                   (exec (readAsText f ;; setFile (Some f) ;; setResult None) p)).
  { rewrite <- (accepted_file_selected f p Hc Hs).
    unfold exec, bind. destruct (validateAndSetFile f p) as [q [[]|x]] eqn:Ev.
    - reflexivity.
    - exfalso. unfold validateAndSetFile in Ev.
      repeat match type of Ev with
             | context [if ?c then _ else _] => destruct c
             end; discriminate Ev. }
  cbv zeta. rewrite E. clear E.
  set (q := exec (readAsText f ;; setFile (Some f) ;; setResult None) p).
  assert (Hq : file q = Some f) by reflexivity. clearbody q.
  assert (P : file (exec (reader_onload (Some (content f))) q) = Some f /\
              csvPreview (exec (reader_onload (Some (content f))) q) =
                slice0 5 (split newline (content f))).
  { unfold exec, reader_onload, bind, setCsvPreview, modify. simpl.
    repeat match goal with
           | |- context [if ?c then _ else _] => destruct c
           end; simpl; auto. }
  destruct P as [Pf Pc].
  exists (join LF (slice0 5 (split newline (content f)))).
  unfold shown_preview. rewrite Pf, Pc, rows_nonempty.
  split; [reflexivity|]. split; [apply join_firstn_prefix|].
  split; [unfold slice0; rewrite List.length_firstn; lia|].
  intros Hlen. unfold slice0. rewrite firstn_all2 by exact Hlen. apply join_split.
Qed.

End PreviewMore.

Section ProgressMore.
Import JS Upload.

Lemma Math_round_div_monotone (a b t : Z) :
  0 < t -> a <= b -> Math_round_div a t <= Math_round_div b t.
Proof.
  intros Ht Hab. unfold Math_round_div.
  apply Z.div_le_mono; lia.
Qed.

(** With a fixed non-zero [total] and [loaded] never going down, the
    progress shown never goes down during an upload. *)
Theorem progress_never_decreases (a : Answer) (p : Page) (f : File) (t : Z) :
  file p = Some f ->
  0 < t ->
  (forall e, In e (progress a) -> total e = Some t /\ 0 <= loaded e) ->
  StronglySorted (fun e1 e2 => loaded e1 <= loaded e2) (progress a) ->
  StronglySorted Z.le (List.map uploadProgress (upload_pages a p)).
Proof.
  intros Hf Ht Hev Hsorted. unfold upload_pages. rewrite Hf.
  set (q0 := exec _ p).
  assert (H0 : forall e, In e (progress a) ->
                         uploadProgress q0 <= Math_round_div (loaded e * 100) t).
  { intros e Hin. destruct (Hev e Hin) as [_ Hl].
    change (uploadProgress q0) with 0.
    pose proof (Math_round_div_nearest (loaded e * 100) t Ht) as B. cbv zeta in B. nia. }
  clearbody q0. revert q0 H0.
  induction Hsorted as [|e r Hr IH Hall]; intros q Hq.
  - simpl. constructor; constructor.
  - simpl.
    assert (Hstep : uploadProgress (exec (onUploadProgress e) q) =
                    Math_round_div (loaded e * 100) t).
    { unfold exec, onUploadProgress.
      destruct (Hev e (or_introl eq_refl)) as [-> _].
      destruct (Z.eqb_spec t 0); [lia|reflexivity]. }
    assert (Hnext : forall e', In e' r ->
                      uploadProgress (exec (onUploadProgress e) q) <=
                      Math_round_div (loaded e' * 100) t).
    { intros e' Hin. rewrite Hstep. apply Math_round_div_monotone; [exact Ht|].
      rewrite List.Forall_forall in Hall. specialize (Hall e' Hin). lia. }
    specialize (IH (fun e' Hin => Hev e' (or_intror Hin)) _ Hnext).
    constructor; [exact IH|].
    destruct (progress_pages_cons r (exec (onUploadProgress e) q)) as (tl & Etl).
    rewrite Etl in *. simpl in *.
    apply StronglySorted_inv in IH. destruct IH as [_ Hhd].
    constructor.
    + rewrite Hstep. apply Hq. left. reflexivity.
    + rewrite List.Forall_forall in *. intros x Hx.
      specialize (Hhd x Hx).
      assert (uploadProgress q <= uploadProgress (exec (onUploadProgress e) q))
        by (rewrite Hstep; apply Hq; left; reflexivity).
      lia.
Qed.

(** The bar reads 100 as soon as at least 99.5 percent is sent, that is
    possibly before the last byte, and 0 while less than half a percent
    is. *)
Theorem progress_hundred_and_zero (e : ProgressEvent) (q : Page) (t : Z) :
  total e = Some t ->
  0 < t ->
  0 <= loaded e <= t ->
  let shown := uploadProgress (exec (onUploadProgress e) q) in
  (shown = 100 <-> 199 * t <= 200 * loaded e) /\
  (shown = 0 <-> 200 * loaded e < t).
Proof.
  intros Et Ht Hl. cbv zeta. unfold exec, onUploadProgress. rewrite Et.
  destruct (Z.eqb_spec t 0); [lia|]. simpl.
  pose proof (Math_round_div_nearest (loaded e * 100) t Ht) as B. cbv zeta in B.
  split; split; intros; nia.
Qed.

End ProgressMore.

Section FormatMore.
Import JS Upload.
Context `{Host}.

Lemma length_append (a b : string) :
  String.length (a ++ b) = (String.length a + String.length b)%nat.
Proof. induction a as [|c a IH]; simpl; [reflexivity | rewrite IH; reflexivity]. Qed.

Lemma length_zeros (k : nat) : String.length (zeros k) = k.
Proof. induction k as [|k IH]; simpl; [reflexivity | rewrite IH; reflexivity]. Qed.

Lemma length_substring (n m : nat) (s : string) :
  (n + m <= String.length s)%nat -> String.length (substring n m s) = m.
Proof.
  revert n m. induction s as [|c s IH]; intros n m Hle; simpl in Hle.
  - assert (n = 0%nat) by lia. assert (m = 0%nat) by lia. subst. reflexivity.
  - destruct n as [|n]; simpl.
    + destruct m as [|m]; simpl; [reflexivity|].
      rewrite (IH 0%nat m) by lia. reflexivity.
    + apply IH. lia.
Qed.

(** The digits with the point placed: at least one digit before the
    point and exactly [f] after it. *)
Lemma place_point_shape (f : nat) (n : Z) :
  f <> 0%nat ->
  exists ip fp : string,
    place_point f n = ip ++ "." ++ fp /\
    String.length fp = f /\ (1 <= String.length ip)%nat.
Proof.
  intros Hf. unfold place_point.
  destruct (Nat.eqb_spec f 0) as [E|_]; [contradiction|].
  set (m := string_of_Z n).
  set (m' := if (String.length m <=? f)%nat
             then zeros (f + 1 - String.length m) ++ m else m).
  assert (Hlen : (f + 1 <= String.length m')%nat).
  { subst m'. destruct (Nat.leb_spec (String.length m) f).
    - rewrite length_append, length_zeros. lia.
    - lia. }
  eexists. eexists. split; [reflexivity|]. split.
  - apply length_substring. lia.
  - rewrite length_substring by lia. lia.
Qed.

(** A percentage is printed with exactly two decimals and a raw score
    with exactly four, with at least one digit before the point and a
    minus sign at most, whenever the number is finite and below [10^21]. *)
Theorem accuracy_decimals (x : float) :
  (fixed_notation (x * 100)%float = true ->
   exists sign ip fp : string,
     percent x = (sign ++ ip ++ "." ++ fp) ++ "%" /\
     (sign = EmptyString \/ sign = "-") /\
     String.length fp = 2%nat /\ (1 <= String.length ip)%nat) /\
  (fixed_notation x = true ->
   exists sign ip fp : string,
     Dashboard.formatNumber (Some x) = sign ++ ip ++ "." ++ fp /\
     (sign = EmptyString \/ sign = "-") /\
     String.length fp = 4%nat /\ (1 <= String.length ip)%nat).
Proof.
  assert (G : forall (f : nat) (y : float),
             f <> 0%nat -> fixed_notation y = true ->
             exists sign ip fp : string,
               toFixed Number_toString f y = sign ++ ip ++ "." ++ fp /\
               (sign = EmptyString \/ sign = "-") /\
               String.length fp = f /\ (1 <= String.length ip)%nat).
  { intros f y Hf Hy. unfold fixed_notation in Hy. unfold toFixed.
    destruct (Prim2SF y) as [s|s| |s m e]; try discriminate Hy.
    - destruct (place_point_shape f 0 Hf) as (ip & fp & E & L1 & L2).
      exists EmptyString, ip, fp. rewrite E. auto.
    - rewrite Hy.
      destruct (place_point_shape f (scaled_round f m e) Hf) as (ip & fp & E & L1 & L2).
      exists (if s then "-" else EmptyString), ip, fp. rewrite E.
      split; [reflexivity|]. split; [destruct s; auto|auto]. }
  split; intros Hx.
  - destruct (G 2%nat (x * 100)%float ltac:(discriminate) Hx) as (sign & ip & fp & E & R).
    exists sign, ip, fp. unfold percent. rewrite E. split; [reflexivity|exact R].
  - destruct (G 4%nat x ltac:(discriminate) Hx) as (sign & ip & fp & E & R).
    exists sign, ip, fp. split; [exact E|exact R].
Qed.

(** After a successful upload the count in the requirements card and the
    count in the results card are the same text: the response's
    [submissionsRemaining]. *)
Theorem remaining_counts_agree (a : Answer) (p : Page) (f : File) (r : SubmissionResult) :
  file p = Some f ->
  settled a = inl r ->
  let p' := exec (handleUpload a) p in
  exists card : ResultCard,
    render_result (result p') = Some card /\
    shown_quota p' = Some (shown_submissions_remaining card) /\
    shown_submissions_remaining card = string_of_Z (r_submissionsRemaining r).
Proof.
  intros Hf Hs.
  destruct (handleUpload_selected a p f Hf) as (n & Hn).
  cbv zeta in *. rewrite Hs in Hn.
  apply (f_equal fst) in Hn.
  change (fst (handleUpload a p)) with (exec (handleUpload a) p) in Hn.
  rewrite Hn. simpl. eexists. split; [reflexivity|]. split; reflexivity.
Qed.

End FormatMore.

(** * Further properties of the leaderboard *)

Section LeaderboardMore.
Import Leaderboard.
Context `{Host}.

(** While the component is mounted, every click and every elapsed
    interval sends exactly one [GET /leaderboard?limit=20], whether
    earlier requests succeeded, failed or are still in flight; nothing
    else sends one. *)
Theorem one_request_per_trigger (es : list Event) (v : View) :
  requests (run es v) =
  (requests v ++
   repeat LEADERBOARD_PATH (List.length (List.filter (triggers (timers v)) es)))%list.
Proof.
  revert v. induction es as [|e r IH]; intros v; simpl.
  - rewrite app_nil_r. reflexivity.
  - rewrite IH, step_timers.
    destruct e as [k|a now|]; simpl.
    + destruct (timers v !! k) as [[d []]|]; simpl; [|reflexivity].
      rewrite <- app_assoc. reflexivity.
    + destruct a; reflexivity.
    + rewrite <- app_assoc. reflexivity.
Qed.

(** Two mounts get different interval identifiers, and the cleanup of
    the first clears its own timer only: the second keeps refreshing. *)
Theorem cleanup_clears_own_timer_only (v : View) :
  let first := mount v in
  let second := mount (fst first) in
  let left := unmount (snd first) (fst second) in
  snd first <> snd second /\
  timers left !! snd first = None /\
  timers left !! snd second = Some {| delay := REFRESH_MS; callback := AutoRefresh |} /\
  requests (step (Elapsed (snd second)) left) =
    (requests left ++ [LEADERBOARD_PATH])%list /\
  forall k, k <> snd first -> timers left !! k = timers (fst second) !! k.
Proof.
  intros first second left.
  assert (Hne : snd first <> snd second).
  { subst second first. unfold mount, setInterval. simpl.
    intros E.
    pose proof (is_fresh (dom (<[fresh (dom (timers v)) :=
                                   {| delay := REFRESH_MS; callback := AutoRefresh |}]>
                                 (timers v)))) as Hfresh.
    rewrite <- E in Hfresh. apply Hfresh.
    rewrite dom_insert_L. set_solver. }
  assert (Hsecond : timers left !! snd second =
                    Some {| delay := REFRESH_MS; callback := AutoRefresh |}).
  { subst left. unfold unmount, clearInterval. simpl.
    rewrite lookup_delete_ne by exact Hne.
    subst second. unfold mount, setInterval. simpl. apply lookup_insert_eq. }
  split; [exact Hne|]. split; [|split; [exact Hsecond|split]].
  - subst left. unfold unmount, clearInterval. simpl. apply lookup_delete_eq.
  - unfold step. rewrite Hsecond. reflexivity.
  - intros k Hk. subst left. unfold unmount, clearInterval. simpl.
    apply lookup_delete_ne. auto.
Qed.

Lemma render_rows_facts (user : option string) (l : list LeaderboardEntry) (i : nat) :
  List.map shown_user (render_rows user i l) = List.map user_id l /\
  List.map shown_rank (render_rows user i l) = seq (i + 1) (List.length l).
Proof.
  revert i. induction l as [|e r IH]; intros i; simpl; [auto|].
  destruct (IH (S i)) as [E1 E2]. rewrite E1, E2.
  replace (S i + 1)%nat with (S (i + 1)) by lia. auto.
Qed.

(** The rows come in the order of the response, numbered 1 to N; the
    first three carry a medal and no other does; a row has the [You]
    badge and the highlight exactly when its user is the logged-in
    one. *)
Theorem rows_follow_response (user : option string) (l : list LeaderboardEntry) :
  let rows := render_rows user 0 l in
  List.map shown_user rows = List.map user_id l /\
  List.map shown_rank rows = seq 1 (List.length l) /\
  (forall row, In row rows ->
     (medal row <> None <-> (shown_rank row <= 3)%nat) /\
     (you_badge row = true <-> user = Some (shown_user row)) /\
     (row_class row = "bg-indigo-50" <-> you_badge row = true)).
Proof.
  cbv zeta. destruct (render_rows_facts user l 0) as [E1 E2].
  split; [exact E1|]. split; [exact E2|].
  assert (G : forall i row, In row (render_rows user i l) ->
     (medal row <> None <-> (shown_rank row <= 3)%nat) /\
     (you_badge row = true <-> user = Some (shown_user row)) /\
     (row_class row = "bg-indigo-50" <-> you_badge row = true)).
  { clear. induction l as [|e r IH]; intros i row Hin; [destruct Hin|].
    destruct Hin as [<-|Hin]; [|exact (IH (S i) row Hin)].
    simpl. split; [|split].
    - destruct (Nat.ltb_spec i 3); split; intros; try lia; try discriminate; congruence.
    - unfold isCurrentUser. destruct user as [u|]; [|split; discriminate].
      rewrite String.eqb_eq. split; [intros ->; reflexivity|intros [= ->]; reflexivity].
    - destruct (isCurrentUser user (user_id e)); split; auto; discriminate. }
  exact (G 0%nat).
Qed.

Lemma run_keeps_loaded (es : list Event) (v : View) :
  isLoading v = false -> isLoading (run es v) = false.
Proof.
  revert v. induction es as [|e r IH]; intros v Hv; simpl; [exact Hv|].
  apply IH. destruct e as [k|a now|]; simpl.
  - destruct (timers v !! k) as [[d []]|]; exact Hv.
  - destruct a; reflexivity.
  - exact Hv.
Qed.

(** Once a request has settled the spinner never comes back, whatever
    happens later. What the table shows after the answer: the rows of a
    non-empty [leaderboard] array; [No entries yet] for an empty one, for
    a body without the array and for a failure, whatever rows were shown
    before. Only a failure leaves [lastUpdated] as it was. *)
Theorem settled_refresh_display (user : option string) (a : Answer) (now : Z)
    (v : View) (es : list Event) :
  let v' := step (Settled a now) v in
  isLoading (run es v') = false /\
  render user v' =
    Table match a with
          | Entries (e :: r) => Rows (render_rows user 0 (e :: r))
          | _ => NoEntries
          end /\
  lastUpdated v' = match a with
                   | Failed _ => lastUpdated v
                   | _ => Some now
                   end.
Proof.
  cbv zeta. split; [|split].
  - apply run_keeps_loaded. destruct a; reflexivity.
  - destruct a as [[|e r]| |m]; reflexivity.
  - destruct a; reflexivity.
Qed.

End LeaderboardMore.

(** * Properties of the dashboard *)

Section DashboardFacts.
Import Dashboard.
Context `{Host}.
Variable toDate : string -> string.

(** The mount always sends the two requests and always ends the
    loading state. Scores and stats are replaced only when both requests
    succeed; if either is rejected both are kept as they were, whatever
    the other request returned, and exactly one error toast is shown. *)
Theorem dashboard_all_or_nothing (a : Answer) (v : View) :
  let v' := fetchUserData a v in
  isLoading v' = false /\
  render toDate v' <> Spinner /\
  requests v' = (requests v ++ [SCORES_PATH; REMAINING_PATH])%list /\
  match scores_reply a, remaining_reply a with
  | inl sd, inl rd =>
      scores v' = sd_scores sd /\ stats v' <> None /\ toasts v' = toasts v
  | _, _ =>
      scores v' = scores v /\ stats v' = stats v /\
      exists m, toasts v' = (toasts v ++ [m])%list
  end.
Proof.
  cbv zeta. unfold fetchUserData, Promise_all, render.
  destruct (scores_reply a) as [sd|e1]; destruct (remaining_reply a) as [rd|e2]; simpl;
    (split; [reflexivity|]); (split; [discriminate|]); (split; [reflexivity|]).
  - split; [reflexivity|]. split; [discriminate|reflexivity].
  - split; [reflexivity|]. split; [reflexivity|]. eexists. reflexivity.
  - split; [reflexivity|]. split; [reflexivity|]. eexists. reflexivity.
  - split; [reflexivity|]. split; [reflexivity|]. eexists. reflexivity.
Qed.

(** The toast of a failed mount is the server's [error] text when the
    first rejection carries a non-empty one, and [Failed to load
    dashboard data] otherwise. *)
Theorem dashboard_failure_toast (a : Answer) (v : View) (e : Upload.AxiosError) :
  Promise_all a = inr e ->
  toasts (fetchUserData a v) =
  (toasts v ++
   [match error_text e with
    | Some m => if String.eqb m EmptyString then MSG_LOAD_FAILED else m
    | None => MSG_LOAD_FAILED
    end])%list.
Proof.
  intros E. unfold fetchUserData. rewrite E. simpl.
  destruct (error_text e) as [m|]; simpl; [|reflexivity].
  destruct (String.eqb m EmptyString); reflexivity.
Qed.

(** After a successful mount the cards show the three quota fields of
    [/remaining-submissions], also where the stats of [/scores] carry
    other values for them; the totals come from [/scores]; a count that
    is missing reads 0. *)
Theorem quota_comes_from_remaining (a : Answer) (v : View)
    (sd : ScoresData) (rd : RemainingData) :
  scores_reply a = inl sd ->
  remaining_reply a = inl rd ->
  let cards := render_cards (stats (fetchUserData a v)) in
  shown_remaining cards = JS.string_of_Z (JS.count_or_zero (rd_submissions_remaining rd)) /\
  shown_limit cards =
    render_limit (Some {| total_submissions := None; best_f1 := None;
                          uploads_today := None;
                          submissions_remaining := None;
                          max_daily_submissions := rd_max_daily_submissions rd;
                          next_reset := rd_next_reset rd |}) /\
  shown_total cards =
    JS.string_of_Z (JS.count_or_zero
                      (match sd_stats sd with Some u => total_submissions u | None => None end)) /\
  shown_today cards =
    JS.string_of_Z (JS.count_or_zero
                      (match sd_stats sd with Some u => uploads_today u | None => None end)).
Proof.
  intros E1 E2. cbv zeta. unfold fetchUserData, Promise_all. rewrite E1, E2.
  simpl. repeat split.
Qed.

(** The line under the remaining count: the daily limit with the reset
    time is shown exactly when the maximum is a non-zero number and
    [next_reset] a non-empty text; a maximum of 0 leaves a bare [0] in the
    card, whatever [next_reset] is. *)
Theorem limit_line_cases (st : option UserStats) :
  (forall m t, render_limit st = Limit m t <->
     exists u r, st = Some u /\ max_daily_submissions u = Some m /\ m <> 0 /\
                 next_reset u = Some r /\ r <> EmptyString /\
                 t = Date_toLocaleTimeString r) /\
  (forall n, render_limit st = BareNumber n <->
     n = 0 /\ exists u, st = Some u /\ max_daily_submissions u = Some 0).
Proof.
  unfold render_limit. split.
  - intros m t. split.
    + destruct st as [u|]; [|discriminate].
      destruct (max_daily_submissions u) as [m'|] eqn:Em; [|discriminate].
      destruct (Z.eqb_spec m' 0); [discriminate|].
      destruct (next_reset u) as [r|] eqn:Er; [|discriminate].
      destruct (String.eqb_spec r EmptyString); [discriminate|].
      intros [= <- <-]. exists u, r. rewrite Em, Er. auto 10.
    + intros (u & r & -> & -> & Hm & -> & Hr & ->).
      destruct (Z.eqb_spec m 0); [contradiction|].
      destruct (String.eqb_spec r EmptyString); [contradiction|reflexivity].
  - intros n. split.
    + destruct st as [u|]; [|discriminate].
      destruct (max_daily_submissions u) as [m'|] eqn:Em; [|discriminate].
      destruct (Z.eqb_spec m' 0) as [->|].
      * intros [= <-]. split; [reflexivity|]. exists u. auto.
      * destruct (next_reset u) as [r|]; [|discriminate].
        destruct (String.eqb r EmptyString); discriminate.
    + intros (-> & u & -> & ->). reflexivity.
Qed.

Lemma number_or_zero_not_nan (v : option float) :
  PrimFloat.is_nan (number_or_zero v) = false.
Proof.
  unfold number_or_zero, JS.number_or.
  destruct v as [x|]; [|reflexivity].
  destruct (JS.number_truthy x) eqn:E; [|reflexivity].
  unfold JS.number_truthy in E. apply negb_true_iff, orb_false_iff in E. tauto.
Qed.

(** The chart has one label and one point in each data set per score,
    in the order of the scores, and no point is NaN: a value that is
    missing, zero or NaN is plotted as 0. *)
Theorem chart_points (l : list Score) :
  let chart := chartData toDate l in
  List.length (labels chart) = List.length l /\
  List.length (f1_data chart) = List.length l /\
  List.length (accuracy_data chart) = List.length l /\
  List.Forall (fun x => PrimFloat.is_nan x = false) (f1_data chart) /\
  List.Forall (fun x => PrimFloat.is_nan x = false) (accuracy_data chart) /\
  (forall i score, nth_error l i = Some score ->
     nth_error (f1_data chart) i =
       Some (match f1 score with
             | Some x => if JS.number_truthy x then x else 0%float
             | None => 0%float
             end)).
Proof.
  cbv zeta. unfold chartData. simpl.
  rewrite !List.length_map. repeat split.
  - apply List.Forall_forall. intros x Hx. apply in_map_iff in Hx.
    destruct Hx as (s & <- & _). apply number_or_zero_not_nan.
  - apply List.Forall_forall. intros x Hx. apply in_map_iff in Hx.
    destruct Hx as (s & <- & _). apply number_or_zero_not_nan.
  - intros i score Hi. rewrite nth_error_map, Hi. simpl.
    unfold number_or_zero, JS.number_or.
    destruct (f1 score) as [x|]; [|reflexivity].
    destruct (JS.number_truthy x); reflexivity.
Qed.

(** [Recent Submissions] lists the first ten scores, in order, and no
    more. *)
Theorem recent_rows_first_ten (l : list Score) :
  List.length (recent_rows toDate l) = Nat.min 10 (List.length l) /\
  forall i score,
    (i < 10)%nat -> nth_error l i = Some score ->
    nth_error (recent_rows toDate l) i = Some (recent_row toDate score).
Proof.
  unfold recent_rows, JS.slice0. split.
  - rewrite List.length_map, List.length_firstn. reflexivity.
  - intros i score Hi Hn. rewrite nth_error_map, nth_error_firstn.
    destruct (Nat.ltb_spec i 10); [|lia]. rewrite Hn. reflexivity.
Qed.

(** The accuracy shown in a row is [accuracy] when that is a non-zero
    number, whatever [item_accuracy] is; [item_accuracy] is the fall-back,
    so a score whose [accuracy] is missing or zero and that has no
    [item_accuracy] reads [N/A]. *)
Theorem accuracy_falls_back (score : Score) :
  (forall x, accuracy score = Some x -> JS.number_truthy x = true ->
             snd (recent_row toDate score) = JS.toFixed Number_toString 4 x) /\
  ((accuracy score = None \/
    exists x, accuracy score = Some x /\ JS.number_truthy x = false) ->
   snd (recent_row toDate score) = formatNumber (item_accuracy score)) /\
  formatNumber None = "N/A".
Proof.
  unfold recent_row, JS.number_or. simpl. split; [|split].
  - intros x -> ->. reflexivity.
  - intros [->|(x & -> & ->)]; reflexivity.
  - reflexivity.
Qed.

End DashboardFacts.
